(** * println: the emitter loop of [scripts/bin/println.cpp]

    The program configures [std::cout] for unit buffering and then, forever,
    inserts ["."], applies [std::endl] and sleeps for 100 microseconds.

    The program text is embedded as an interaction tree over the library
    calls it makes; the calls get their meaning from a model of the C++
    output stream ([std::basic_ostream], C++11 [ostream.formatted] and
    [ostream.unformatted]) over a file descriptor whose writes may fail. *)

From Stdlib Require Import String Ascii List ZArith Lia Bool Arith.
From ITree Require Import ITree.
Import ListNotations.
Import ITreeNotations.
Local Open Scope string_scope.
Local Open Scope Z_scope.
Local Open Scope itree_scope.

(** ** The output stream *)

Module ios.
(** [std::ios_base::fmtflags] is a bitmask type.  The values are those of
    libstdc++ ([_S_dec = 1 << 1], [_S_skipws = 1 << 12],
    [_S_unitbuf = 1 << 13]). *)
Definition fmtflags := Z.
Definition dec : fmtflags := Z.shiftl 1 1.
Definition skipws : fmtflags := Z.shiftl 1 12.
Definition unitbuf : fmtflags := Z.shiftl 1 13.

(** [std::ios_base::iostate], as far as output goes: the stream is good, or
    a write failed and [badbit] was raised. *)
Inductive iostate := goodbit | badbit.
End ios.

(** [std::cout]: its format flags, its error state and the characters that
    were inserted and not yet handed to the file descriptor. *)
Record ostream := mk_ostream {
  flags : ios.fmtflags;
  rdstate : ios.iostate;
  pending : string
}.

Definition good (os : ostream) : bool :=
  match rdstate os with ios.goodbit => true | ios.badbit => false end.

Definition has_unitbuf (fl : ios.fmtflags) : bool :=
  negb (Z.land fl ios.unitbuf =? 0).

Definition unitbuf_set (os : ostream) : bool := has_unitbuf (flags os).

Arguments has_unitbuf : simpl never.

(** The calls the program makes, as they appear in the text. *)
Inductive call :=
| CSetf (fl : ios.fmtflags)
| CInsert (s : string)
| CEndl
| CSleepFor (us : Z).

(** The process: what it was started with, its standard output stream, what
    file descriptor 1 has received so far (one entry per successful write, the
    oldest first), the number of writes attempted on it, the sleeps requested
    (the oldest first) and the calls made (the oldest first). *)
Record process := mk_process {
  argv : list string;
  environ : list (string * string);
  stdin : string;
  cout : ostream;
  fd1 : list string;
  attempts : nat;
  sleeps : list Z;
  calls : list call
}.

Definition set_cout (os : ostream) (p : process) : process :=
  mk_process (argv p) (environ p) (stdin p) os
             (fd1 p) (attempts p) (sleeps p) (calls p).

Definition record_call (c : call) (p : process) : process :=
  mk_process (argv p) (environ p) (stdin p) (cout p)
             (fd1 p) (attempts p) (sleeps p) (calls p ++ [c]).

Definition setstate (st : ios.iostate) (os : ostream) : ostream :=
  match st with
  | ios.goodbit => os
  | ios.badbit => mk_ostream (flags os) ios.badbit (pending os)
  end.

(** ['\n'] *)
Definition newline : string := String "010"%char EmptyString.

Section Platform.

(** Whether the k-th write attempted on file descriptor 1 succeeds (the
    downstream reader may have gone away). *)
Variable write_ok : nat -> bool.

(** [rdbuf()->pubsync()]: hands the pending characters to the file
    descriptor.  Nothing pending is a success without a write.  The result
    is [true] for 0 and [false] for -1. *)
Definition pubsync (p : process) : bool * process :=
  match pending (cout p) with
  | EmptyString => (true, p)
  | data =>
      if write_ok (attempts p)
      then (true,
            mk_process (argv p) (environ p) (stdin p)
                       (mk_ostream (flags (cout p)) (rdstate (cout p))
                                  EmptyString)
                       (fd1 p ++ [data]) (S (attempts p)) (sleeps p) (calls p))
      else (false,
            mk_process (argv p) (environ p) (stdin p) (cout p)
                       (fd1 p) (S (attempts p)) (sleeps p) (calls p))
  end.

(** [pubsync], raising [badbit] when it fails. *)
Definition sync_or_bad (p : process) : process :=
  let (ok, p') := pubsync p in
  if ok then p' else set_cout (setstate ios.badbit (cout p')) p'.

(** [~sentry()]: with [unitbuf] set and the stream good, flush. *)
Definition sentry_dtor (p : process) : process :=
  if unitbuf_set (cout p) && good (cout p) then sync_or_bad p else p.

(** [sputn]: the characters go to the put area.  The put area is not
    bounded here; the program never holds more than two characters in
    it. *)
Definition sputn (s : string) (p : process) : process :=
  set_cout (mk_ostream (flags (cout p)) (rdstate (cout p))
                       (pending (cout p) ++ s)) p.

(** [os << s] and [os.put(c)]: a sentry (ok when the stream is good;
    [std::cout] is tied to nothing), the insertion, the sentry's
    destructor. *)
Definition insert (s : string) (p : process) : process :=
  if good (cout p) then sentry_dtor (sputn s p) else p.

(** [os.flush()], an unformatted output function. *)
Definition flush (p : process) : process :=
  if good (cout p) then sentry_dtor (sync_or_bad p) else p.

(** [std::endl]: [os.put(os.widen('\n'))] then [os.flush()]. *)
Definition endl (p : process) : process := flush (insert newline p).

(** [os.setf(fl)]: the flags are or-ed in, the previous ones returned. *)
Definition setf (fl : ios.fmtflags) (p : process) : ios.fmtflags * process :=
  (flags (cout p),
   set_cout (mk_ostream (Z.lor (flags (cout p)) fl) (rdstate (cout p))
                        (pending (cout p))) p).

(** [std::this_thread::sleep_for(d)]: the request is recorded. *)
Definition sleep_for (us : Z) (p : process) : process :=
  mk_process (argv p) (environ p) (stdin p) (cout p)
             (fd1 p) (attempts p) (sleeps p ++ [us]) (calls p).

End Platform.

(** ** The program *)

Variant libE : Type -> Type :=
| Setf (fl : ios.fmtflags) : libE ios.fmtflags
| Insert (s : string) : libE unit
| Endl : libE unit
| SleepFor (us : Z) : libE unit.

(** [while (c) { body }] *)
Definition while_ (c : bool) (body : itree libE unit) : itree libE unit :=
  ITree.iter (fun _ : unit =>
                if c then body ;; Ret (inl tt) else Ret (inr tt)) tt.

Definition microseconds (n : Z) : Z := n.

Definition loop_body : itree libE unit :=
  ITree.trigger (Insert ".") ;; ITree.trigger Endl ;;
  ITree.trigger (SleepFor (microseconds 100)).

Definition emitter_loop : itree libE Z :=
  while_ true loop_body ;; Ret 0.

Definition main : itree libE Z :=
  ITree.trigger (Setf ios.unitbuf) ;; emitter_loop.

(** The program of the comparison in which line 5 is removed. *)
Definition main_without_unitbuf : itree libE Z := emitter_loop.

(** ** Execution *)

Definition call_of {T} (e : libE T) : call :=
  match e with
  | Setf fl => CSetf fl
  | Insert s => CInsert s
  | Endl => CEndl
  | SleepFor us => CSleepFor us
  end.

Inductive config :=
| Running (t : itree libE Z) (p : process)
| Exited (status : Z) (p : process).

Definition state_of (c : config) : process :=
  match c with Running _ p => p | Exited _ p => p end.

Section Run.
Variable write_ok : nat -> bool.

Definition handle {T} (e : libE T) (p : process) : T * process :=
  let p := record_call (call_of e) p in
  match e in libE T return T * process with
  | Setf fl => setf fl p
  | Insert s => (tt, insert write_ok s p)
  | Endl => (tt, endl write_ok p)
  | SleepFor us => (tt, sleep_for us p)
  end.

Definition step (c : config) : config :=
  match c with
  | Exited _ _ => c
  | Running t p =>
      match observe t with
      | RetF r => Exited r p
      | TauF t' => Running t' p
      | VisF e k => let (x, p') := handle e p in Running (k x) p'
      end
  end.

Fixpoint run (n : nat) (c : config) : config :=
  match n with
  | O => c
  | S n' => run n' (step c)
  end.
End Run.

Definition start (args : list string) (env : list (string * string))
           (input : string) : process :=
  mk_process args env input
             (mk_ostream (Z.lor ios.skipws ios.dec) ios.goodbit EmptyString)
             [] 0%nat [] [].

(** A process started with no arguments, an empty environment and nothing
    on standard input. *)
Definition bare_start : process := start [] [] EmptyString.

(** The state after each statement of the loop body, and after a whole
    iteration. *)
Definition do_insert (w : nat -> bool) (p : process) : process :=
  snd (handle w (Insert ".") p).

Definition do_endl (w : nat -> bool) (p : process) : process :=
  snd (handle w Endl p).

Definition do_sleep (w : nat -> bool) (p : process) : process :=
  snd (handle w (SleepFor (microseconds 100)) p).

Definition iteration (w : nat -> bool) (p : process) : process :=
  do_sleep w (do_endl w (do_insert w p)).

Definition do_setf (w : nat -> bool) (p : process) : process :=
  snd (handle w (Setf ios.unitbuf) p).

(** What a configuration does next. *)
Inductive next :=
| NCall (c : call)
| NBackEdge
| NReturn (status : Z)
| NExited (status : Z).

Definition next_of (c : config) : next :=
  match c with
  | Exited r _ => NExited r
  | Running t _ =>
      match observe t with
      | RetF r => NReturn r
      | TauF _ => NBackEdge
      | VisF e _ => NCall (call_of e)
      end
  end.

(** ** Observations on a process *)

Fixpoint flatten (l : list string) : string :=
  match l with
  | [] => EmptyString
  | x :: l' => x ++ flatten l'
  end.

(** Everything file descriptor 1 has received, in order. *)
Definition stdout_bytes (p : process) : string := flatten (fd1 p).

(** The requested sleeping time so far, in microseconds. *)
Definition slept_us (p : process) : Z := fold_right Z.add 0 (sleeps p).

(** The lines of a text, each with its terminator, and what follows the
    last terminator. *)
Fixpoint split_lines (s : string) : list string * string :=
  match s with
  | EmptyString => ([], EmptyString)
  | String c s' =>
      let (ls, r) := split_lines s' in
      if Ascii.eqb c "010"%char
      then (String c EmptyString :: ls, r)
      else match ls with
           | [] => ([], String c r)
           | l :: ls' => (String c l :: ls', r)
           end
  end.

Definition emitted_lines (s : string) : list string := fst (split_lines s).
Definition unterminated (s : string) : string := snd (split_lines s).

Fixpoint copies (n : nat) (s : string) : string :=
  match n with
  | O => EmptyString
  | S n' => s ++ copies n' s
  end.

Definition dot_line : string := "." ++ newline.

(** The calls of k iterations of the loop body. *)
Fixpoint cycles (k : nat) : list call :=
  match k with
  | O => []
  | S k' => cycles k' ++ [CInsert "."; CEndl; CSleepFor (microseconds 100)]
  end.

(** A platform on which no write fails. *)
Definition reliable (w : nat -> bool) : Prop := forall k, w k = true.

Definition ok_always : nat -> bool := fun _ => true.

(** A platform whose reader is gone from the start. *)
Definition closed_pipe : nat -> bool := fun _ => false.

(** The points of the program inside the loop, for states [I] at its
    head, and the points of [main]. *)
Variant at_loop (w : nat -> bool) (I : process -> Prop)
  : next -> process -> Prop :=
| at_insert p : I p -> at_loop w I (NCall (CInsert ".")) p
| at_endl p : I p -> at_loop w I (NCall CEndl) (do_insert w p)
| at_sleep p :
    I p ->
    at_loop w I (NCall (CSleepFor (microseconds 100)))
            (do_endl w (do_insert w p))
| at_back_edge p : I p -> at_loop w I NBackEdge (iteration w p).

Variant at_main (w : nat -> bool) (I : process -> Prop) (p0 : process)
  : next -> process -> Prop :=
| at_setf : at_main w I p0 (NCall (CSetf ios.unitbuf)) p0
| in_loop nx p : at_loop w I nx p -> at_main w I p0 nx p.

(** A state at the head of the loop of [main], on any platform: the stream
    is unit-buffered; while it is good nothing is pending and whole lines
    have been delivered; once it is bad at most the dot of a last line was
    delivered. *)
Definition stream_inv (p : process) : Prop :=
  has_unitbuf (flags (cout p)) = true /\
  exists m,
    (good (cout p) = true /\ pending (cout p) = EmptyString /\
     stdout_bytes p = copies m dot_line)
    \/ (good (cout p) = false /\
        (stdout_bytes p = copies m dot_line
         \/ stdout_bytes p = copies m dot_line ++ ".")).

(** What is on standard output consists of whole lines [".\n"] and at most
    the dot of a next one. *)
Definition dot_lines_only (s : string) : Prop :=
  exists m, s = copies m dot_line \/ s = copies m dot_line ++ ".".

(** What the library calls other than [setf] and [sleep_for] leave alone. *)
Record same_frame (p q : process) : Prop := mk_same_frame {
  fr_argv : argv q = argv p;
  fr_environ : environ q = environ p;
  fr_stdin : stdin q = stdin p;
  fr_flags : flags (cout q) = flags (cout p);
  fr_sleeps : sleeps q = sleeps p;
  fr_calls : calls q = calls p
}.

(** What the control of a program can depend on: the values its calls
    return are computed from this part of the state. *)
Definition control (p : process) : ios.fmtflags * list Z * list call :=
  (flags (cout p), sleeps p, calls p).

(** The process with what it was started with forgotten. *)
Definition forget_inputs (p : process) : process :=
  mk_process [] [] EmptyString (cout p)
             (fd1 p) (attempts p) (sleeps p) (calls p).

(** The output side of a process: the error state of the stream, what is
    pending in it, what file descriptor 1 received and how many writes were
    attempted. *)
Definition device (p : process) : ios.iostate * string * list string * nat :=
  (rdstate (cout p), pending (cout p), fd1 p, attempts p).

(** A state at the head of the loop of [main] started with flags [fl0]:
    line 5 was executed once, then whole iterations. *)
Definition head_control (fl0 : ios.fmtflags) (p : process) : Prop :=
  exists k,
    control p = (Z.lor fl0 ios.unitbuf, repeat (microseconds 100) k,
                 CSetf ios.unitbuf :: cycles k).

Definition is_setf (c : call) : bool :=
  match c with CSetf _ => true | _ => false end.

(** The characters the calls made so far asked to write. *)
Fixpoint written (cs : list call) : string :=
  match cs with
  | [] => EmptyString
  | CInsert s :: r => s ++ written r
  | CEndl :: r => newline ++ written r
  | _ :: r => written r
  end.

(** The writes of k iterations when each output operation is flushed, and
    when only [endl] flushes. *)
Fixpoint unit_chunks (k : nat) : list string :=
  match k with
  | O => []
  | S k' => unit_chunks k' ++ ["."; newline]
  end.

Fixpoint line_chunks (k : nat) : list string :=
  match k with
  | O => []
  | S k' => line_chunks k' ++ [dot_line]
  end.

(** A state at the head of the loop on a platform without write failures:
    of [main], and of the program without line 5. *)
Definition flushed_head (p : process) : Prop :=
  has_unitbuf (flags (cout p)) = true /\
  good (cout p) = true /\
  pending (cout p) = EmptyString /\
  fd1 p = unit_chunks (length (sleeps p)) /\
  stdout_bytes p = written (calls p).

Definition buffered_head (p : process) : Prop :=
  has_unitbuf (flags (cout p)) = false /\
  good (cout p) = true /\
  pending (cout p) = EmptyString /\
  fd1 p = line_chunks (length (sleeps p)) /\
  stdout_bytes p = written (calls p).

(** A state at the head of the loop of [main] on any platform: as long as
    the stream is good, it is as on a platform without write failures. *)
Definition good_head (p : process) : Prop :=
  good (cout p) = true -> flushed_head p.

(** The sequence of writes that reached file descriptor 1 is the same with
    and without line 5, after any number of iterations. *)
Definition same_flush_trace (w : nat -> bool) (p0 : process) : Prop :=
  forall k,
    fd1 (state_of (run w (1 + 4 * k) (Running main p0)))
    = fd1 (state_of (run w (4 * k) (Running main_without_unitbuf p0))).

(** Where the output side of [main] can stand: a whole number of lines was
    delivered; or also the dot of the next line; or the write of a dot, or
    of a terminator, was refused and the stream is bad. *)
Inductive stage := Line | Dot | DotRefused | NewlineRefused.

(** The output side of [main] at a stage, after k whole lines: what was
    delivered went in writes of one character each, and no write failed but
    the last one of a bad stream. *)
Definition wire_at (s : stage) (k : nat) (p : process) : Prop :=
  device p
  = match s with
    | Line => (ios.goodbit, EmptyString, unit_chunks k, (2 * k)%nat)
    | Dot =>
        (ios.goodbit, EmptyString, (unit_chunks k ++ ["."])%list,
         S (2 * k))
    | DotRefused => (ios.badbit, ".", unit_chunks k, S (2 * k))
    | NewlineRefused =>
        (ios.badbit, newline, (unit_chunks k ++ ["."])%list, S (S (2 * k)))
    end.

(** A state at the head of the loop of [main] on any platform: no more
    lines were delivered than sleeps were requested. *)
Definition wire_head (p : process) : Prop :=
  has_unitbuf (flags (cout p)) = true /\
  exists s k, s <> Dot /\ wire_at s k p /\ (k <= length (sleeps p))%nat.

(** A platform that accepts the first write and refuses every later one. *)
Definition first_write_only : nat -> bool := fun k => Nat.eqb k 0.


(** Once a sleep period has been requested at least one line is on
    standard output. *)
Definition line_after_a_sleep_period (w : nat -> bool) (p0 : process)
  : Prop :=
  forall n,
    let p := state_of (run w n (Running main p0)) in
    100 <= slept_us p ->
    (1 <= length (emitted_lines (stdout_bytes p)))%nat.

(** After n iterations standard output holds n lines. *)
Definition n_lines_after_n_iterations (w : nat -> bool) (p0 : process)
  : Prop :=
  forall n,
    stdout_bytes (state_of (run w (1 + 4 * n) (Running main p0)))
    = copies n ("." ++ newline).

(** ** Strings *)

Lemma append_nil_r (s : string) : s ++ EmptyString = s.
Proof. induction s as [|c s IH]; simpl; [reflexivity | now rewrite IH]. Qed.

Lemma append_assoc (a b c : string) : (a ++ b) ++ c = a ++ (b ++ c).
Proof. induction a as [|x a IH]; simpl; [reflexivity | now rewrite IH]. Qed.

Lemma length_append (a b : string) :
  String.length (a ++ b) = (String.length a + String.length b)%nat.
Proof. induction a as [|x a IH]; simpl; [reflexivity | now rewrite IH]. Qed.

Lemma flatten_snoc (l : list string) (x : string) :
  flatten (l ++ [x]) = flatten l ++ x.
Proof.
  induction l as [|y l IH]; simpl.
  - apply append_nil_r.
  - now rewrite IH, append_assoc.
Qed.

Lemma copies_snoc (n : nat) (s : string) : copies (S n) s = copies n s ++ s.
Proof.
  induction n as [|n IH].
  - simpl. now rewrite append_nil_r.
  - change (copies (S (S n)) s) with (s ++ copies (S n) s).
    rewrite IH at 1. simpl. now rewrite append_assoc.
Qed.

Lemma length_copies_dot_line (n : nat) :
  String.length (copies n dot_line) = (2 * n)%nat.
Proof.
  induction n as [|n IH]; [reflexivity|].
  cbn [copies]. rewrite length_append, IH. simpl. lia.
Qed.

Lemma split_lines_copies (n : nat) (r : string) :
  r = EmptyString \/ r = "." ->
  split_lines (copies n dot_line ++ r) = (repeat dot_line n, r).
Proof.
  intros Hr. induction n as [|n IH].
  - destruct Hr; subst; reflexivity.
  - change (copies (S n) dot_line ++ r)
      with (String "." (String "010" (copies n dot_line ++ r))).
    cbn [split_lines]. rewrite IH. reflexivity.
Qed.

(** ** Execution of the loop *)

Section Exec.
Variable w : nat -> bool.

Lemma run_add (a b : nat) (c : config) :
  run w (a + b) c = run w b (run w a c).
Proof.
  revert c. induction a as [|a IH]; intros c; simpl; [reflexivity | apply IH].
Qed.

(** Four steps from the head of the loop (three calls and the back edge)
    lead to the head of the loop again. *)
Lemma run_iteration (p : process) :
  run w 4 (Running emitter_loop p) = Running emitter_loop (iteration w p).
Proof. reflexivity. Qed.

Lemma run_iterations (k : nat) (p : process) :
  run w (4 * k) (Running emitter_loop p)
  = Running emitter_loop (Nat.iter k (iteration w) p).
Proof.
  induction k as [|k IH]; [reflexivity|].
  replace (4 * S k)%nat with (4 * k + 4)%nat by lia.
  rewrite run_add, IH, run_iteration. reflexivity.
Qed.

(** After line 5 the program is at the head of the loop. *)
Lemma run_main_S (n : nat) (p : process) :
  next_of (run w (S n) (Running main p))
  = next_of (run w n (Running emitter_loop (do_setf w p)))
  /\ state_of (run w (S n) (Running main p))
     = state_of (run w n (Running emitter_loop (do_setf w p))).
Proof. destruct n; split; reflexivity. Qed.

Section Invariant.
Variable I : process -> Prop.
Hypothesis I_iteration : forall p, I p -> I (iteration w p).

Lemma I_iterations (k : nat) (p : process) :
  I p -> I (Nat.iter k (iteration w) p).
Proof. intros H. induction k; simpl; auto. Qed.

Lemma loop_points (p0 : process) (n : nat) :
  I p0 ->
  at_loop w I (next_of (run w n (Running emitter_loop p0)))
          (state_of (run w n (Running emitter_loop p0))).
Proof.
  intros H0.
  rewrite (Nat.div_mod_eq n 4), run_add, run_iterations.
  pose proof (I_iterations (n / 4) p0 H0) as Hk.
  pose proof (Nat.mod_upper_bound n 4 ltac:(lia)) as Hj.
  destruct (n mod 4)%nat as [|[|[|[|j]]]]; try lia.
  - apply at_insert, Hk.
  - apply at_endl, Hk.
  - apply at_sleep, Hk.
  - apply at_back_edge, Hk.
Qed.

Lemma main_points (p0 : process) (n : nat) :
  I (do_setf w p0) ->
  at_main w I p0 (next_of (run w n (Running main p0)))
          (state_of (run w n (Running main p0))).
Proof.
  intros H0. destruct n as [|n].
  - apply at_setf.
  - destruct (run_main_S n p0) as [-> ->].
    apply in_loop, loop_points, H0.
Qed.
End Invariant.
End Exec.

(** ** The library calls *)

Section Library.
Variable w : nat -> bool.

Lemma same_frame_refl (p : process) : same_frame p p.
Proof. now constructor. Qed.

Lemma same_frame_trans (p q r : process) :
  same_frame p q -> same_frame q r -> same_frame p r.
Proof. intros [] []. constructor; congruence. Qed.

Lemma pubsync_frame (p : process) : same_frame p (snd (pubsync w p)).
Proof.
  unfold pubsync. destruct (pending (cout p)); [apply same_frame_refl|].
  destruct (w (attempts p)); now constructor.
Qed.

Lemma sync_or_bad_frame (p : process) : same_frame p (sync_or_bad w p).
Proof.
  unfold sync_or_bad. pose proof (pubsync_frame p) as H.
  destruct (pubsync w p) as [[|] q]; cbn in H; [exact H|].
  eapply same_frame_trans; [exact H|]. now constructor.
Qed.

Lemma sentry_dtor_frame (p : process) : same_frame p (sentry_dtor w p).
Proof.
  unfold sentry_dtor.
  destruct (unitbuf_set (cout p) && good (cout p));
    [apply sync_or_bad_frame | apply same_frame_refl].
Qed.

Lemma insert_frame (s : string) (p : process) : same_frame p (insert w s p).
Proof.
  unfold insert. destruct (good (cout p)); [|apply same_frame_refl].
  eapply same_frame_trans; [|apply sentry_dtor_frame]. now constructor.
Qed.

Lemma flush_frame (p : process) : same_frame p (flush w p).
Proof.
  unfold flush. destruct (good (cout p)); [|apply same_frame_refl].
  eapply same_frame_trans; [apply sync_or_bad_frame | apply sentry_dtor_frame].
Qed.

Lemma endl_frame (p : process) : same_frame p (endl w p).
Proof.
  unfold endl.
  eapply same_frame_trans; [apply insert_frame | apply flush_frame].
Qed.

(** The effect of each statement of the loop body on the calls, the
    sleeps and the flags. *)
Lemma do_insert_control (p : process) :
  control (do_insert w p)
  = (flags (cout p), sleeps p, (calls p ++ [CInsert "."])%list).
Proof.
  unfold do_insert, handle, control. cbn [snd call_of].
  destruct (insert_frame "." (record_call (CInsert ".") p)) as [_ _ _ -> -> ->].
  reflexivity.
Qed.

Lemma do_endl_control (p : process) :
  control (do_endl w p) = (flags (cout p), sleeps p, (calls p ++ [CEndl])%list).
Proof.
  unfold do_endl, handle, control. cbn [snd call_of].
  destruct (endl_frame (record_call CEndl p)) as [_ _ _ -> -> ->].
  reflexivity.
Qed.

Lemma do_sleep_control (p : process) :
  control (do_sleep w p)
  = (flags (cout p), (sleeps p ++ [microseconds 100])%list,
     (calls p ++ [CSleepFor (microseconds 100)])%list).
Proof. reflexivity. Qed.

Lemma iteration_control (p : process) :
  control (iteration w p)
  = (flags (cout p), (sleeps p ++ [microseconds 100])%list,
     (calls p ++ [CInsert "."; CEndl; CSleepFor (microseconds 100)])%list).
Proof.
  unfold iteration. rewrite do_sleep_control.
  pose proof (do_endl_control (do_insert w p)) as He.
  pose proof (do_insert_control p) as Hi.
  unfold control in He, Hi. injection He as -> -> ->. injection Hi as -> -> ->.
  rewrite <- !app_assoc. reflexivity.
Qed.

(** On a bad stream nothing is inserted and nothing is flushed. *)
Lemma insert_on_bad (s : string) (p : process) :
  good (cout p) = false -> insert w s p = p.
Proof. intros H. unfold insert. now rewrite H. Qed.

Lemma endl_on_bad (p : process) :
  good (cout p) = false -> endl w p = p.
Proof.
  intros H. unfold endl. rewrite (insert_on_bad _ _ H).
  unfold flush. now rewrite H.
Qed.

Ltac open_process p :=
  destruct p as [? ? ? [? [|] ?] ? ? ? ?]; unfold good, device in *;
  cbn [cout rdstate pending flags fd1 attempts] in *;
  try discriminate; subst.

(** On a good unit-buffered stream with nothing pending, an insertion is
    written at once, or the stream goes bad. *)
Lemma insert_unitbuf (c : ascii) (s : string) (p : process) :
  good (cout p) = true ->
  has_unitbuf (flags (cout p)) = true ->
  pending (cout p) = EmptyString ->
  device (insert w (String c s) p)
  = if w (attempts p)
    then (ios.goodbit, EmptyString, (fd1 p ++ [String c s])%list,
          S (attempts p))
    else (ios.badbit, String c s, fd1 p, S (attempts p)).
Proof.
  intros Hg Hu Hp. open_process p.
  unfold insert, sputn, sentry_dtor, unitbuf_set, good; cbn.
  rewrite Hu. cbn. unfold sync_or_bad, pubsync; cbn.
  destruct (w attempts0); reflexivity.
Qed.

Lemma endl_unitbuf (p : process) :
  good (cout p) = true ->
  has_unitbuf (flags (cout p)) = true ->
  pending (cout p) = EmptyString ->
  device (endl w p)
  = if w (attempts p)
    then (ios.goodbit, EmptyString, (fd1 p ++ [newline])%list, S (attempts p))
    else (ios.badbit, newline, fd1 p, S (attempts p)).
Proof.
  intros Hg Hu Hp. unfold endl.
  pose proof (insert_unitbuf "010" EmptyString p Hg Hu Hp) as Hi.
  fold newline in Hi.
  pose proof (insert_frame newline p) as [_ _ _ Hf _ _].
  destruct (w (attempts p)).
  - remember (insert w newline p) as q eqn:E. clear E.
    rewrite <- Hf in Hu. clear Hf.
    open_process q. injection Hi as -> -> ->.
    unfold flush, sync_or_bad, pubsync, sentry_dtor, unitbuf_set, good; cbn.
    rewrite Hu; cbn. reflexivity.
  - assert (Hb : good (cout (insert w newline p)) = false).
    { unfold good. unfold device in Hi. injection Hi as -> _ _ _. reflexivity. }
    unfold flush. rewrite Hb. exact Hi.
Qed.

(** Without unit buffering an insertion stays pending and [endl] writes
    what is pending, with the terminator, in one piece. *)
Lemma insert_buffered (s : string) (p : process) :
  good (cout p) = true ->
  has_unitbuf (flags (cout p)) = false ->
  device (insert w s p)
  = (ios.goodbit, pending (cout p) ++ s, fd1 p, attempts p).
Proof.
  intros Hg Hu. open_process p.
  unfold insert, sputn, sentry_dtor, unitbuf_set, good; cbn.
  rewrite Hu. reflexivity.
Qed.

Lemma endl_buffered (p : process) :
  good (cout p) = true ->
  has_unitbuf (flags (cout p)) = false ->
  device (endl w p)
  = if w (attempts p)
    then (ios.goodbit, EmptyString,
          (fd1 p ++ [(pending (cout p) ++ newline)%string])%list,
          S (attempts p))
    else (ios.badbit, pending (cout p) ++ newline, fd1 p, S (attempts p)).
Proof.
  intros Hg Hu. unfold endl.
  pose proof (insert_buffered newline p Hg Hu) as Hi.
  pose proof (insert_frame newline p) as [_ _ _ Hf _ _].
  remember (insert w newline p) as q eqn:E. clear E.
  rewrite <- Hf in Hu. clear Hf.
  assert (Hne : exists c s, pending (cout p) ++ newline = String c s).
  { destruct (pending (cout p)) as [|c s];
      [exists "010"%char, EmptyString | exists c, (s ++ newline)];
      reflexivity. }
  destruct Hne as (c & s & Hne). rewrite Hne in *.
  open_process q. injection Hi as -> -> ->.
  unfold flush, sync_or_bad, pubsync, sentry_dtor, unitbuf_set, good; cbn.
  destruct (w (attempts p)); cbn; rewrite Hu; reflexivity.
Qed.

(** The statements of the loop body. *)
Lemma do_insert_flags (p : process) :
  flags (cout (do_insert w p)) = flags (cout p).
Proof.
  pose proof (do_insert_control p) as H. unfold control in H. congruence.
Qed.

Lemma do_endl_flags (p : process) :
  flags (cout (do_endl w p)) = flags (cout p).
Proof.
  pose proof (do_endl_control p) as H. unfold control in H. congruence.
Qed.

Lemma do_insert_sleeps (p : process) : sleeps (do_insert w p) = sleeps p.
Proof.
  pose proof (do_insert_control p) as H. unfold control in H. congruence.
Qed.

Lemma do_endl_sleeps (p : process) : sleeps (do_endl w p) = sleeps p.
Proof.
  pose proof (do_endl_control p) as H. unfold control in H. congruence.
Qed.

Lemma do_insert_on_bad (p : process) :
  good (cout p) = false -> device (do_insert w p) = device p.
Proof.
  intros H. unfold do_insert, handle. cbn [snd call_of].
  rewrite insert_on_bad; [reflexivity | exact H].
Qed.

Lemma do_endl_on_bad (p : process) :
  good (cout p) = false -> device (do_endl w p) = device p.
Proof.
  intros H. unfold do_endl, handle. cbn [snd call_of].
  rewrite endl_on_bad; [reflexivity | exact H].
Qed.

Lemma do_insert_unitbuf (p : process) :
  good (cout p) = true ->
  has_unitbuf (flags (cout p)) = true ->
  pending (cout p) = EmptyString ->
  device (do_insert w p)
  = if w (attempts p)
    then (ios.goodbit, EmptyString, (fd1 p ++ ["."])%list, S (attempts p))
    else (ios.badbit, ".", fd1 p, S (attempts p)).
Proof.
  intros Hg Hu Hp. unfold do_insert, handle. cbn [snd call_of].
  apply (insert_unitbuf "." EmptyString (record_call (CInsert ".") p));
    assumption.
Qed.

Lemma do_endl_unitbuf (p : process) :
  good (cout p) = true ->
  has_unitbuf (flags (cout p)) = true ->
  pending (cout p) = EmptyString ->
  device (do_endl w p)
  = if w (attempts p)
    then (ios.goodbit, EmptyString, (fd1 p ++ [newline])%list, S (attempts p))
    else (ios.badbit, newline, fd1 p, S (attempts p)).
Proof.
  intros Hg Hu Hp. unfold do_endl, handle. cbn [snd call_of].
  apply (endl_unitbuf (record_call CEndl p)); assumption.
Qed.

Lemma do_insert_buffered (p : process) :
  good (cout p) = true ->
  has_unitbuf (flags (cout p)) = false ->
  device (do_insert w p)
  = (ios.goodbit, pending (cout p) ++ ".", fd1 p, attempts p).
Proof.
  intros Hg Hu. unfold do_insert, handle. cbn [snd call_of].
  apply (insert_buffered "." (record_call (CInsert ".") p)); assumption.
Qed.

Lemma do_endl_buffered (p : process) :
  good (cout p) = true ->
  has_unitbuf (flags (cout p)) = false ->
  device (do_endl w p)
  = if w (attempts p)
    then (ios.goodbit, EmptyString,
          (fd1 p ++ [(pending (cout p) ++ newline)%string])%list,
          S (attempts p))
    else (ios.badbit, pending (cout p) ++ newline, fd1 p, S (attempts p)).
Proof.
  intros Hg Hu. unfold do_endl, handle. cbn [snd call_of].
  apply (endl_buffered (record_call CEndl p)); assumption.
Qed.
End Library.

Ltac device_eq H :=
  unfold device in H;
  let Hst := fresh "Hst" in
  let Hpd := fresh "Hpd" in
  let Hfd := fresh "Hfd" in
  let Hat := fresh "Hat" in
  injection H as Hst Hpd Hfd Hat.

Lemma control_parts (p : process) (fl : ios.fmtflags) (sl : list Z)
      (cl : list call) :
  control p = (fl, sl, cl) ->
  flags (cout p) = fl /\ sleeps p = sl /\ calls p = cl.
Proof. unfold control. intros H. repeat split; congruence. Qed.

Lemma good_of_rdstate (p : process) :
  rdstate (cout p) = ios.goodbit -> good (cout p) = true.
Proof. intros H. unfold good. now rewrite H. Qed.

Lemma bad_of_rdstate (p : process) :
  rdstate (cout p) = ios.badbit -> good (cout p) = false.
Proof. intros H. unfold good. now rewrite H. Qed.

(** ** The stream of [main] on any platform *)

Section AnyPlatform.
Variable w : nat -> bool.

Lemma stream_inv_body (p : process) :
  stream_inv p ->
  dot_lines_only (stdout_bytes (do_insert w p))
  /\ dot_lines_only (stdout_bytes (do_endl w (do_insert w p)))
  /\ stream_inv (iteration w p).
Proof.
  intros [Hu [m H]].
  assert (Hu1 : has_unitbuf (flags (cout (do_insert w p))) = true)
    by now rewrite do_insert_flags.
  assert (Hu2 : has_unitbuf (flags (cout (do_endl w (do_insert w p)))) = true)
    by now rewrite do_endl_flags.
  unfold iteration, stream_inv, dot_lines_only, stdout_bytes in *.
  set (q1 := do_insert w p) in *. set (q2 := do_endl w q1) in *.
  change (cout (do_sleep w q2)) with (cout q2).
  change (fd1 (do_sleep w q2)) with (fd1 q2).
  destruct H as [(Hg & Hp & Hb) | (Hg & Hb)].
  - pose proof (do_insert_unitbuf w p Hg Hu Hp) as Hi. fold q1 in Hi.
    destruct (w (attempts p)); device_eq Hi.
    + pose proof (do_endl_unitbuf w q1 (good_of_rdstate _ Hst) Hu1 Hpd) as He.
      fold q2 in He.
      assert (B1 : flatten (fd1 q1) = copies m dot_line ++ ".")
        by now rewrite Hfd, flatten_snoc, Hb.
      destruct (w (attempts q1)); device_eq He.
      * assert (B2 : flatten (fd1 q2) = copies (S m) dot_line).
        { rewrite Hfd0, flatten_snoc, B1, append_assoc, copies_snoc.
          reflexivity. }
        repeat split; eauto.
        exists (S m). left. repeat split; auto using good_of_rdstate.
      * assert (B2 : flatten (fd1 q2) = copies m dot_line ++ ".")
          by now rewrite Hfd0.
        repeat split; eauto.
        exists m. right. split; auto using bad_of_rdstate.
    + pose proof (do_endl_on_bad w q1 (bad_of_rdstate _ Hst)) as He.
      fold q2 in He. device_eq He. rewrite Hst in Hst0.
      rewrite Hfd0, Hfd. repeat split; eauto.
      exists m. right. split; auto using bad_of_rdstate.
  - pose proof (do_insert_on_bad w p Hg) as Hi. fold q1 in Hi. device_eq Hi.
    assert (Hg1 : good (cout q1) = false)
      by (unfold good in *; now rewrite Hst).
    pose proof (do_endl_on_bad w q1 Hg1) as He. fold q2 in He. device_eq He.
    assert (Hg2 : good (cout q2) = false)
      by (unfold good in *; now rewrite Hst0).
    rewrite Hfd0, Hfd. repeat split; eauto.
Qed.

Lemma stream_inv_iteration (p : process) :
  stream_inv p -> stream_inv (iteration w p).
Proof. intros H. apply stream_inv_body, H. Qed.

Lemma stream_inv_start (args : list string) (env : list (string * string))
      (input : string) :
  stream_inv (do_setf w (start args env input)).
Proof.
  split; [reflexivity|]. exists 0%nat. left. repeat split.
Qed.

Lemma dot_lines_only_split (s : string) :
  dot_lines_only s ->
  Forall (fun l => l = "." ++ newline) (emitted_lines s)
  /\ (unterminated s = EmptyString \/ unterminated s = ".")
  /\ s = flatten (emitted_lines s) ++ unterminated s.
Proof.
  intros [m H].
  assert (E : exists r, (r = EmptyString \/ r = ".")
                        /\ s = copies m dot_line ++ r).
  { destruct H as [-> | ->]; [exists EmptyString | exists "."]; split; auto.
    now rewrite append_nil_r. }
  destruct E as (r & Hr & ->).
  unfold emitted_lines, unterminated.
  rewrite (split_lines_copies m r Hr). cbn [fst snd].
  repeat split; auto.
  - apply Forall_forall. intros l Hl. apply repeat_spec in Hl. exact Hl.
  - f_equal. clear. induction m as [|m IH]; [reflexivity|].
    cbn [copies repeat flatten]. now rewrite <- IH.
Qed.
End AnyPlatform.

(** ** Control *)

Section Control.
Variable w : nat -> bool.

Lemma run_exited (n : nat) (r : Z) (p : process) :
  run w n (Exited r p) = Exited r p.
Proof. induction n; simpl; auto. Qed.

Lemma running_of_next (c : config) :
  (exists x, next_of c = NCall x) \/ next_of c = NBackEdge ->
  exists t p, c = Running t p /\ forall r, observe t <> RetF r.
Proof.
  destruct c as [t p|r p]; cbn.
  - intros H. exists t, p. split; [reflexivity|].
    intros r E. rewrite E in H. destruct H as [[x H]|H]; discriminate.
  - intros [[x H]|H]; discriminate.
Qed.

Lemma main_at_head (p0 : process) (k : nat) :
  next_of (run w (1 + 4 * k) (Running main p0)) = NCall (CInsert ".")
  /\ state_of (run w (1 + 4 * k) (Running main p0))
     = Nat.iter k (iteration w) (do_setf w p0).
Proof.
  change (1 + 4 * k)%nat with (S (4 * k)).
  destruct (run_main_S w (4 * k) p0) as [-> ->].
  rewrite run_iterations. split; reflexivity.
Qed.

Lemma loop_at_head (p0 : process) (k : nat) :
  next_of (run w (4 * k) (Running emitter_loop p0)) = NCall (CInsert ".")
  /\ state_of (run w (4 * k) (Running emitter_loop p0))
     = Nat.iter k (iteration w) p0.
Proof. rewrite run_iterations. split; reflexivity. Qed.

Lemma head_control_iteration (fl0 : ios.fmtflags) (p : process) :
  head_control fl0 p -> head_control fl0 (iteration w p).
Proof.
  intros [k H]. exists (S k). rewrite iteration_control.
  unfold control in H. injection H as -> -> ->.
  cbn [cycles]. rewrite <- repeat_cons. reflexivity.
Qed.

Lemma head_control_start (p0 : process) :
  calls p0 = [] -> sleeps p0 = [] ->
  head_control (flags (cout p0)) (do_setf w p0).
Proof.
  intros Hc Hs. exists 0%nat. unfold control, do_setf, handle, setf.
  cbn. now rewrite Hc, Hs.
Qed.

Lemma cycles_no_setf (k : nat) :
  forallb (fun c => negb (is_setf c)) (cycles k) = true.
Proof.
  induction k as [|k IH]; [reflexivity|].
  cbn [cycles]. rewrite forallb_app, IH. reflexivity.
Qed.
End Control.

(** ** What the control of a program can see *)

Lemma control_of_frame (p q : process) :
  same_frame p q -> control q = control p.
Proof. intros []. unfold control. congruence. Qed.

(** No call returns anything that depends on the outcome of a write: two
    platforms give the same returned value and the same flags, sleeps and
    calls. *)
Lemma handle_control (w1 w2 : nat -> bool) {T} (e : libE T) (p q : process) :
  control p = control q ->
  fst (handle w1 e p) = fst (handle w2 e q)
  /\ control (snd (handle w1 e p)) = control (snd (handle w2 e q)).
Proof.
  intros H. unfold control in H. injection H as Hf Hs Hc.
  destruct e; unfold handle; cbn [call_of fst snd].
  - unfold setf, control; cbn. split; congruence.
  - split; [reflexivity|].
    rewrite !(control_of_frame _ _ (insert_frame _ _ _)).
    unfold control; cbn. congruence.
  - split; [reflexivity|].
    rewrite !(control_of_frame _ _ (endl_frame _ _)).
    unfold control; cbn. congruence.
  - split; [reflexivity|]. unfold control; cbn. congruence.
Qed.

Lemma run_control (w1 w2 : nat -> bool) (n : nat) :
  forall (t : itree libE Z) (p q : process),
    control p = control q ->
    next_of (run w1 n (Running t p)) = next_of (run w2 n (Running t q))
    /\ control (state_of (run w1 n (Running t p)))
       = control (state_of (run w2 n (Running t q))).
Proof.
  induction n as [|n IH]; intros t p q H.
  - split; [reflexivity | exact H].
  - cbn [run step]. destruct (observe t) as [r|t'|X e k].
    + rewrite !run_exited. split; [reflexivity | exact H].
    + apply IH, H.
    + destruct (handle_control w1 w2 e p q H) as [Hx Hc].
      destruct (handle w1 e p) as [x1 p1], (handle w2 e q) as [x2 q1].
      cbn [fst snd] in Hx, Hc. subst x2. apply IH, Hc.
Qed.

(** ** What the process was started with is not read *)

Section Inputs.
Variable w : nat -> bool.

Lemma pubsync_forget (p : process) :
  pubsync w (forget_inputs p)
  = (fst (pubsync w p), forget_inputs (snd (pubsync w p))).
Proof.
  unfold pubsync. cbn [forget_inputs cout attempts].
  destruct (pending (cout p)); [reflexivity|].
  destruct (w (attempts p)); reflexivity.
Qed.

Lemma sync_or_bad_forget (p : process) :
  sync_or_bad w (forget_inputs p) = forget_inputs (sync_or_bad w p).
Proof.
  unfold sync_or_bad. rewrite pubsync_forget.
  destruct (pubsync w p) as [[|] q]; reflexivity.
Qed.

Lemma sentry_dtor_forget (p : process) :
  sentry_dtor w (forget_inputs p) = forget_inputs (sentry_dtor w p).
Proof.
  unfold sentry_dtor. cbn [forget_inputs cout].
  destruct (unitbuf_set (cout p) && good (cout p));
    [apply sync_or_bad_forget | reflexivity].
Qed.

Lemma insert_forget (s : string) (p : process) :
  insert w s (forget_inputs p) = forget_inputs (insert w s p).
Proof.
  unfold insert. cbn [forget_inputs cout].
  destruct (good (cout p)); [|reflexivity].
  rewrite <- sentry_dtor_forget. reflexivity.
Qed.

Lemma flush_forget (p : process) :
  flush w (forget_inputs p) = forget_inputs (flush w p).
Proof.
  unfold flush. cbn [forget_inputs cout].
  destruct (good (cout p)); [|reflexivity].
  now rewrite sync_or_bad_forget, sentry_dtor_forget.
Qed.

Lemma endl_forget (p : process) :
  endl w (forget_inputs p) = forget_inputs (endl w p).
Proof. unfold endl. now rewrite insert_forget, flush_forget. Qed.

Lemma handle_forget {T} (e : libE T) (p : process) :
  handle w e (forget_inputs p)
  = (fst (handle w e p), forget_inputs (snd (handle w e p))).
Proof.
  destruct e; unfold handle; cbn [call_of fst snd].
  - reflexivity.
  - now rewrite <- insert_forget.
  - now rewrite <- endl_forget.
  - reflexivity.
Qed.

Lemma run_forget (n : nat) :
  forall (t : itree libE Z) (p : process),
    next_of (run w n (Running t (forget_inputs p)))
    = next_of (run w n (Running t p))
    /\ state_of (run w n (Running t (forget_inputs p)))
       = forget_inputs (state_of (run w n (Running t p))).
Proof.
  induction n as [|n IH]; intros t p.
  - split; reflexivity.
  - cbn [run step]. destruct (observe t) as [r|t'|X e k].
    + rewrite !run_exited. split; reflexivity.
    + apply IH.
    + rewrite handle_forget. destruct (handle w e p) as [x p1].
      cbn [fst snd]. apply IH.
Qed.
End Inputs.

(** ** What was written and what was delivered *)

Lemma written_snoc (cs : list call) (c : call) :
  written (cs ++ [c]) = written cs ++ written [c].
Proof.
  induction cs as [|x cs IH]; [reflexivity|].
  destruct x; cbn [app written]; rewrite IH; try reflexivity;
    now rewrite append_assoc.
Qed.

Lemma flatten_unit_chunks (k : nat) :
  flatten (unit_chunks k) = copies k dot_line.
Proof.
  induction k as [|k IH]; [reflexivity|].
  cbn [unit_chunks]. change ["."; newline] with (["."] ++ [newline])%list.
  rewrite app_assoc, !flatten_snoc, IH, append_assoc, copies_snoc.
  reflexivity.
Qed.

Lemma flatten_line_chunks (k : nat) :
  flatten (line_chunks k) = copies k dot_line.
Proof.
  induction k as [|k IH]; [reflexivity|].
  cbn [line_chunks]. now rewrite flatten_snoc, IH, copies_snoc.
Qed.

(** ** The stream of [main] while it is good *)

Section WhileGood.
Variable w : nat -> bool.

(** Once the stream is bad it stays bad. *)
Lemma bad_steps (p : process) :
  good (cout p) = false ->
  good (cout (do_insert w p)) = false
  /\ good (cout (do_endl w (do_insert w p))) = false
  /\ good (cout (iteration w p)) = false.
Proof.
  intros H.
  pose proof (do_insert_on_bad w p H) as Hi. device_eq Hi.
  assert (G1 : good (cout (do_insert w p)) = false)
    by (unfold good in *; now rewrite Hst).
  pose proof (do_endl_on_bad w _ G1) as He. device_eq He.
  assert (G2 : good (cout (do_endl w (do_insert w p))) = false)
    by (unfold good in *; now rewrite Hst0).
  repeat split; assumption.
Qed.

(** One iteration from a state in which everything written was delivered:
    at each point at which the stream is still good, the writes of the
    iteration so far were delivered one by one. *)
Lemma flushed_steps (p : process) :
  flushed_head p ->
  (good (cout (do_insert w p)) = true ->
   device (do_insert w p)
   = (ios.goodbit, EmptyString, (fd1 p ++ ["."])%list, S (attempts p))
   /\ stdout_bytes (do_insert w p) = written (calls (do_insert w p)))
  /\ (good (cout (do_endl w (do_insert w p))) = true ->
      device (do_endl w (do_insert w p))
      = (ios.goodbit, EmptyString, (fd1 p ++ ["."; newline])%list,
         S (S (attempts p)))
      /\ stdout_bytes (do_endl w (do_insert w p))
         = written (calls (do_endl w (do_insert w p))))
  /\ (good (cout (iteration w p)) = true -> flushed_head (iteration w p)).
Proof.
  intros (Hu & Hg & Hp & Hhd & Hwr).
  pose proof (do_insert_unitbuf w p Hg Hu Hp) as Hi.
  destruct (control_parts _ _ _ _ (do_insert_control w p)) as (Cf1 & Cs1 & Cc1).
  destruct (control_parts _ _ _ _ (do_endl_control w (do_insert w p)))
    as (Cf2 & Cs2 & Cc2).
  unfold iteration.
  set (q1 := do_insert w p) in *. set (q2 := do_endl w q1) in *.
  change (cout (do_sleep w q2)) with (cout q2).
  assert (Hu1 : has_unitbuf (flags (cout q1)) = true) by now rewrite Cf1.
  destruct (w (attempts p)).
  - pose proof Hi as Hi'. device_eq Hi'.
    pose proof (do_endl_unitbuf w q1 (good_of_rdstate _ Hst) Hu1 Hpd) as He.
    fold q2 in He.
    assert (B1 : stdout_bytes q1 = written (calls q1)).
    { unfold stdout_bytes in *.
      rewrite Hfd, Cc1, flatten_snoc, written_snoc, Hwr. reflexivity. }
    split; [intros _; split; [exact Hi | exact B1]|].
    destruct (w (attempts q1)).
    + pose proof He as He'. device_eq He'.
      assert (B2 : stdout_bytes q2 = written (calls q2)).
      { unfold stdout_bytes in *.
        rewrite Hfd0, Cc2, flatten_snoc, written_snoc, B1. reflexivity. }
      split; intros _.
      * split; [|exact B2]. rewrite He, Hfd, Hat, <- app_assoc. reflexivity.
      * unfold flushed_head.
        change (cout (do_sleep w q2)) with (cout q2).
        change (fd1 (do_sleep w q2)) with (fd1 q2).
        change (stdout_bytes (do_sleep w q2)) with (stdout_bytes q2).
        change (sleeps (do_sleep w q2))
          with (sleeps q2 ++ [microseconds 100])%list.
        change (calls (do_sleep w q2))
          with (calls q2 ++ [CSleepFor (microseconds 100)])%list.
        repeat split.
        -- now rewrite Cf2.
        -- now apply good_of_rdstate.
        -- exact Hpd0.
        -- rewrite Hfd0, Hfd, Cs2, Cs1, Hhd, length_app, Nat.add_1_r.
           cbn [unit_chunks]. now rewrite <- app_assoc.
        -- rewrite written_snoc, B2. cbn [written]. now rewrite append_nil_r.
    + device_eq He. pose proof (bad_of_rdstate _ Hst0) as G2.
      split; intros G; rewrite G2 in G; discriminate G.
  - device_eq Hi. pose proof (bad_of_rdstate _ Hst) as G1.
    pose proof (do_endl_on_bad w q1 G1) as He. fold q2 in He. device_eq He.
    assert (G2 : good (cout q2) = false)
      by (unfold good in *; now rewrite Hst0).
    split; [|split]; intros G;
      first [rewrite G1 in G | rewrite G2 in G]; discriminate G.
Qed.

Lemma good_head_iteration (p : process) :
  good_head p -> good_head (iteration w p).
Proof.
  intros H G. destruct (good (cout p)) eqn:Gp.
  - now apply (flushed_steps p (H Gp)).
  - destruct (bad_steps p Gp) as (_ & _ & B). rewrite B in G. discriminate G.
Qed.

Lemma flushed_head_start (args : list string) (env : list (string * string))
      (input : string) :
  flushed_head (do_setf w (start args env input)).
Proof. repeat split. Qed.

(** At any point of [main] at which the stream is good, nothing is pending,
    what the calls asked to write is on standard output, and this is whole
    lines, at least one for each sleep requested, with the dot of a next
    line between the insert and the endl; when a sleep is about to
    start there is one line more than sleeps requested. *)
Lemma main_flushed (args : list string) (env : list (string * string))
      (input : string) (n : nat) :
  let c := run w n (Running main (start args env input)) in
  let p := state_of c in
  good (cout p) = true ->
  pending (cout p) = EmptyString /\ stdout_bytes p = written (calls p)
  /\ exists (m : nat) (r : string),
       (r = EmptyString \/ r = ".")
       /\ stdout_bytes p = copies m dot_line ++ r
       /\ (length (sleeps p) <= m)%nat
       /\ (forall d, next_of c = NCall (CSleepFor d) ->
           m = S (length (sleeps p))).
Proof.
  cbv zeta.
  pose proof (main_points w good_head good_head_iteration
                (start args env input) n
                (fun _ => flushed_head_start args env input)) as H.
  set (nx := next_of _) in *. set (p := state_of _) in *. clearbody nx p.
  assert (Hhead : forall q, flushed_head q ->
            pending (cout q) = EmptyString
            /\ stdout_bytes q = written (calls q)
            /\ stdout_bytes q = copies (length (sleeps q)) dot_line ++ EmptyString).
  { intros q (_ & _ & Hp & Hhd & Hwr). repeat split; auto.
    unfold stdout_bytes. now rewrite Hhd, flatten_unit_chunks, append_nil_r. }
  assert (Hgood : forall q, good_head q ->
            good (cout (do_insert w q)) = true
            \/ good (cout (do_endl w (do_insert w q))) = true
            \/ good (cout (iteration w q)) = true ->
            flushed_head q).
  { intros q Hq G. destruct (good (cout q)) eqn:Gq; [now apply Hq|].
    destruct (bad_steps q Gq) as (B1 & B2 & B3).
    rewrite B1, B2, B3 in G. destruct G as [G|[G|G]]; discriminate G. }
  destruct H as [|? ? [q Hq|q Hq|q Hq|q Hq]]; intros G.
  - repeat split. exists 0%nat, EmptyString.
    repeat split; auto. intros d E. discriminate E.
  - destruct (Hhead q (Hq G)) as (Hp & Hwr & Hb).
    repeat split; auto. exists (length (sleeps q)), EmptyString.
    repeat split; auto. intros d E. discriminate E.
  - pose proof (Hgood q Hq (or_introl G)) as Hf.
    destruct (flushed_steps q Hf) as (S1 & _). destruct (S1 G) as (Hd & Hb).
    destruct Hf as (_ & _ & _ & Hhd & _).
    device_eq Hd. repeat split; auto.
    exists (length (sleeps q)), ".". rewrite do_insert_sleeps.
    repeat split; auto; [|intros d E; discriminate E].
    unfold stdout_bytes.
    now rewrite Hfd, flatten_snoc, Hhd, flatten_unit_chunks.
  - pose proof (Hgood q Hq (or_intror (or_introl G))) as Hf.
    destruct (flushed_steps q Hf) as (_ & S2 & _). destruct (S2 G) as (Hd & Hb).
    destruct Hf as (_ & _ & _ & Hhd & _).
    device_eq Hd. repeat split; auto.
    exists (S (length (sleeps q))), EmptyString.
    rewrite do_endl_sleeps, do_insert_sleeps.
    repeat split; auto.
    unfold stdout_bytes. rewrite Hfd, Hhd.
    change (unit_chunks (length (sleeps q)) ++ ["."; newline])%list
      with (unit_chunks (S (length (sleeps q)))).
    now rewrite flatten_unit_chunks, append_nil_r.
  - pose proof (Hgood q Hq (or_intror (or_intror G))) as Hf.
    destruct (flushed_steps q Hf) as (_ & _ & S3).
    destruct (Hhead _ (S3 G)) as (Hp & Hwr & Hb).
    repeat split; auto. exists (length (sleeps (iteration w q))), EmptyString.
    repeat split; auto. intros d E. discriminate E.
Qed.
End WhileGood.

(** ** A platform without write failures *)

Section Reliable.
Variable w : nat -> bool.
Hypothesis w_reliable : reliable w.

Lemma flushed_body (p : process) :
  flushed_head p ->
  (device (do_insert w p)
   = (ios.goodbit, EmptyString, (fd1 p ++ ["."])%list, S (attempts p))
   /\ stdout_bytes (do_insert w p) = written (calls (do_insert w p)))
  /\ (device (do_endl w (do_insert w p))
      = (ios.goodbit, EmptyString, (fd1 p ++ ["."; newline])%list,
         S (S (attempts p)))
      /\ stdout_bytes (do_endl w (do_insert w p))
         = written (calls (do_endl w (do_insert w p))))
  /\ flushed_head (iteration w p).
Proof.
  intros H. destruct (flushed_steps w p H) as (S1 & S2 & S3).
  destruct H as (Hu & Hg & Hp & _).
  pose proof (do_insert_unitbuf w p Hg Hu Hp) as Hi.
  rewrite w_reliable in Hi. device_eq Hi.
  pose proof (good_of_rdstate _ Hst) as G1.
  assert (Hu1 : has_unitbuf (flags (cout (do_insert w p))) = true)
    by now rewrite do_insert_flags.
  pose proof (do_endl_unitbuf w _ G1 Hu1 Hpd) as He.
  rewrite w_reliable in He. device_eq He.
  pose proof (good_of_rdstate _ Hst0) as G2.
  split; [exact (S1 G1)|]. split; [exact (S2 G2)|]. exact (S3 G2).
Qed.

Lemma flushed_head_iteration (p : process) :
  flushed_head p -> flushed_head (iteration w p).
Proof. intros H. apply flushed_body, H. Qed.

Lemma buffered_body (p : process) :
  buffered_head p ->
  device (do_insert w p) = (ios.goodbit, ".", fd1 p, attempts p)
  /\ device (do_endl w (do_insert w p))
     = (ios.goodbit, EmptyString, (fd1 p ++ [dot_line])%list, S (attempts p))
  /\ buffered_head (iteration w p).
Proof.
  intros (Hu & Hg & Hp & Hhd & Hwr).
  pose proof (do_insert_buffered w p Hg Hu) as Hi. rewrite Hp in Hi.
  change (EmptyString ++ ".") with "." in Hi.
  destruct (control_parts _ _ _ _ (do_insert_control w p)) as (Cf1 & Cs1 & Cc1).
  destruct (control_parts _ _ _ _ (do_endl_control w (do_insert w p)))
    as (Cf2 & Cs2 & Cc2).
  unfold iteration.
  set (q1 := do_insert w p) in *. set (q2 := do_endl w q1) in *.
  assert (Hu1 : has_unitbuf (flags (cout q1)) = false) by now rewrite Cf1.
  pose proof Hi as Hi'. device_eq Hi'.
  pose proof (do_endl_buffered w q1 (good_of_rdstate _ Hst) Hu1) as He.
  rewrite w_reliable, Hpd, Hfd, Hat in He.
  change ("." ++ newline) with dot_line in He. fold q2 in He.
  pose proof He as He'. device_eq He'.
  split; [exact Hi|]. split; [exact He|].
  unfold buffered_head.
  change (cout (do_sleep w q2)) with (cout q2).
  change (fd1 (do_sleep w q2)) with (fd1 q2).
  change (stdout_bytes (do_sleep w q2)) with (stdout_bytes q2).
  change (sleeps (do_sleep w q2)) with (sleeps q2 ++ [microseconds 100])%list.
  change (calls (do_sleep w q2))
    with (calls q2 ++ [CSleepFor (microseconds 100)])%list.
  repeat split.
  - now rewrite Cf2.
  - now apply good_of_rdstate.
  - exact Hpd0.
  - rewrite Hfd0, Cs2, Cs1, Hhd, length_app, Nat.add_1_r. reflexivity.
  - unfold stdout_bytes in *.
    rewrite Hfd0, Cc2, Cc1, flatten_snoc, !written_snoc, Hwr.
    cbn [written]. rewrite !append_nil_r, append_assoc. reflexivity.
Qed.

Lemma buffered_head_iteration (p : process) :
  buffered_head p -> buffered_head (iteration w p).
Proof. intros H. apply buffered_body, H. Qed.

Lemma buffered_head_start (args : list string) (env : list (string * string))
      (input : string) :
  buffered_head (start args env input).
Proof. repeat split. Qed.

(** Without write failures the stream of [main] is good at every point. *)
Lemma reliable_good (args : list string) (env : list (string * string))
      (input : string) (n : nat) :
  good (cout (state_of (run w n (Running main (start args env input))))) = true.
Proof.
  pose proof (main_points w flushed_head flushed_head_iteration
                (start args env input) n
                (flushed_head_start w args env input)) as H.
  set (nx := next_of _) in *. set (p := state_of _) in *. clearbody nx p.
  destruct H as [|? ? [q Hq|q Hq|q Hq|q Hq]].
  - reflexivity.
  - apply Hq.
  - destruct (flushed_body q Hq) as ((Hd & _) & _). device_eq Hd.
    now apply good_of_rdstate.
  - destruct (flushed_body q Hq) as (_ & (Hd & _) & _). device_eq Hd.
    now apply good_of_rdstate.
  - apply (flushed_head_iteration q Hq).
Qed.
End Reliable.

(** ** The properties of the emitter loop *)

Lemma stream_inv_dot_lines (p : process) :
  stream_inv p -> dot_lines_only (stdout_bytes p).
Proof.
  intros [_ [m [(_ & _ & H) | (_ & H)]]]; exists m; tauto.
Qed.

Lemma main_dot_lines (w : nat -> bool) (p0 : process) (n : nat) :
  stream_inv (do_setf w p0) ->
  stdout_bytes p0 = EmptyString ->
  dot_lines_only (stdout_bytes (state_of (run w n (Running main p0)))).
Proof.
  intros H0 Hb.
  pose proof (main_points w stream_inv (stream_inv_iteration w) p0 n H0) as H.
  set (nx := next_of _) in H. set (p := state_of _) in *. clearbody nx p.
  destruct H as [|? ? [q Hq|q Hq|q Hq|q Hq]].
  - exists 0%nat. now left.
  - now apply stream_inv_dot_lines.
  - now apply (stream_inv_body w q Hq).
  - now apply (stream_inv_body w q Hq).
  - apply stream_inv_dot_lines. now apply stream_inv_iteration.
Qed.

(** C1: on any platform, from any start and at any point of the run, what
    standard output has received splits into lines that each equal the dot
    followed by one line terminator, followed by nothing or by the dot of
    the line being written: nothing else ever appears on standard output. *)
Theorem stdout_holds_only_dot_lines
        (w : nat -> bool) (args : list string) (env : list (string * string))
        (input : string) (n : nat) :
  let out := stdout_bytes
               (state_of (run w n (Running main (start args env input)))) in
  Forall (fun l => l = "." ++ newline) (emitted_lines out)
  /\ (unterminated out = EmptyString \/ unterminated out = ".")
  /\ out = flatten (emitted_lines out) ++ unterminated out.
Proof.
  cbv zeta. apply dot_lines_only_split, main_dot_lines.
  - apply stream_inv_start.
  - reflexivity.
Qed.

(** C2: on any platform the program never exits and never stands at a
    return: after any number of steps it is still running, and from there it
    reaches the head of the loop, from which a whole further iteration
    (insert, endl, sleep) is executed and leads to the head of the loop
    again. *)
Theorem main_never_terminates
        (w : nat -> bool) (args : list string) (env : list (string * string))
        (input : string) (n : nat) :
  let init := Running main (start args env input) in
  (exists t p, run w n init = Running t p /\ forall r, observe t <> RetF r)
  /\ exists m, (n <= m)%nat
       /\ next_of (run w m init) = NCall (CInsert ".")
       /\ next_of (run w (m + 4) init) = NCall (CInsert ".")
       /\ state_of (run w (m + 4) init) = iteration w (state_of (run w m init))
       /\ calls (state_of (run w (m + 4) init))
          = (calls (state_of (run w m init))
             ++ [CInsert "."; CEndl; CSleepFor 100])%list.
Proof.
  cbv zeta. split.
  - apply running_of_next.
    pose proof (main_points w (fun _ => True) (fun _ _ => I)
                            (start args env input) n I) as H.
    set (nx := next_of _) in *. set (p := state_of _) in *. clearbody nx p.
    destruct H as [|? ? [q Hq|q Hq|q Hq|q Hq]]; eauto.
  - exists (1 + 4 * n)%nat.
    replace (1 + 4 * n + 4)%nat with (1 + 4 * S n)%nat by lia.
    destruct (main_at_head w (start args env input) n) as [-> ->].
    destruct (main_at_head w (start args env input) (S n)) as [-> ->].
    rewrite Nat.iter_succ.
    repeat split; [lia|].
    pose proof (iteration_control w
                  (Nat.iter n (iteration w) (do_setf w (start args env input))))
      as H.
    unfold control in H. injection H as _ _ H. exact H.
Qed.

Lemma Forall_repeat_100 (k : nat) :
  Forall (fun d => d = 100) (repeat (microseconds 100) k).
Proof. apply Forall_forall. intros d H. now apply repeat_spec in H. Qed.

(** The flags, the sleeps and the calls at any point after line 5. *)
Lemma main_control (w : nat -> bool) (p0 : process) (n : nat) :
  calls p0 = [] -> sleeps p0 = [] ->
  let p := state_of (run w (S n) (Running main p0)) in
  flags (cout p) = Z.lor (flags (cout p0)) ios.unitbuf
  /\ Forall (fun d => d = 100) (sleeps p)
  /\ exists k tail,
       calls p = (CSetf ios.unitbuf :: cycles k ++ tail)%list
       /\ forallb (fun c => negb (is_setf c)) tail = true.
Proof.
  intros Hc Hs. cbv zeta.
  destruct (run_main_S w n p0) as [_ ->].
  pose proof (loop_points w (head_control (flags (cout p0)))
                (head_control_iteration w _) (do_setf w p0) n
                (head_control_start w p0 Hc Hs)) as H.
  set (nx := next_of _) in H. set (p := state_of _) in *. clearbody nx p.
  destruct H as [q [k Hq]|q [k Hq]|q [k Hq]|q [k Hq]];
    destruct (control_parts _ _ _ _ Hq) as (F0 & S0 & C0).
  - rewrite F0, S0, C0.
    split; [reflexivity|]. split; [apply Forall_repeat_100|].
    exists k, []. now rewrite app_nil_r.
  - destruct (control_parts _ _ _ _ (do_insert_control w q)) as (F1 & S1 & C1).
    rewrite F1, S1, C1, F0, S0, C0.
    split; [reflexivity|]. split; [apply Forall_repeat_100|].
    exists k, [CInsert "."]. split; reflexivity.
  - destruct (control_parts _ _ _ _ (do_insert_control w q)) as (F1 & S1 & C1).
    destruct (control_parts _ _ _ _ (do_endl_control w (do_insert w q)))
      as (F2 & S2 & C2).
    rewrite F2, S2, C2, F1, S1, C1, F0, S0, C0.
    split; [reflexivity|]. split; [apply Forall_repeat_100|].
    exists k, [CInsert "."; CEndl]. rewrite <- app_assoc. split; reflexivity.
  - destruct (control_parts _ _ _ _ (iteration_control w q)) as (F1 & S1 & C1).
    rewrite F1, S1, C1, F0, S0, C0.
    split; [reflexivity|]. split.
    + apply Forall_app. split; [apply Forall_repeat_100 | now constructor].
    + exists (S k), []. rewrite app_nil_r. split; reflexivity.
Qed.

Lemma main_head_control (w : nat -> bool) (p0 : process) (k : nat) :
  calls p0 = [] -> sleeps p0 = [] ->
  control (state_of (run w (1 + 4 * k) (Running main p0)))
  = (Z.lor (flags (cout p0)) ios.unitbuf, repeat (microseconds 100) k,
     CSetf ios.unitbuf :: cycles k).
Proof.
  intros Hc Hs. destruct (main_at_head w p0 k) as [_ ->].
  induction k as [|k IH].
  - unfold control, do_setf, handle, setf. cbn. now rewrite Hc, Hs.
  - rewrite Nat.iter_succ, iteration_control.
    destruct (control_parts _ _ _ _ IH) as (-> & -> & ->).
    cbn [cycles]. rewrite <- repeat_cons. reflexivity.
Qed.

(** C4: on any platform every sleep the program requests is of 100
    microseconds, and after k iterations the calls made are line 5 followed
    by k times: insert the dot, endl, sleep for 100 microseconds, in this
    order, with k sleeps requested (one in each iteration, after the write
    and before the next iteration). *)
Theorem sleeps_100us_after_each_write
        (w : nat -> bool) (args : list string) (env : list (string * string))
        (input : string) :
  let init := Running main (start args env input) in
  (forall n, Forall (fun d => d = 100) (sleeps (state_of (run w n init))))
  /\ (forall k,
        calls (state_of (run w (1 + 4 * k) init))
        = CSetf ios.unitbuf :: cycles k
        /\ sleeps (state_of (run w (1 + 4 * k) init)) = repeat 100 k)
  /\ (forall k,
        cycles (S k)
        = (cycles k ++ [CInsert "."; CEndl; CSleepFor 100])%list).
Proof.
  cbv zeta. split; [|split; [|reflexivity]].
  - intros [|n]; [constructor|].
    now apply (main_control w (start args env input) n).
  - intros k.
    pose proof (main_head_control w (start args env input) k eq_refl eq_refl)
      as H.
    apply control_parts in H. tauto.
Qed.

(** C5: on any platform the flags of the stream are set by line 5, the
    first call the program makes (nothing has been written then), and never
    again: at every later point the flags are the initial ones with unitbuf
    or-ed in, and no call after the first is a setf. *)
Theorem unitbuf_configured_once
        (w : nat -> bool) (args : list string) (env : list (string * string))
        (input : string) (n : nat) :
  let p0 := start args env input in
  let p := state_of (run w (S n) (Running main p0)) in
  next_of (Running main p0) = NCall (CSetf ios.unitbuf)
  /\ next_of (run w 1 (Running main p0)) = NCall (CInsert ".")
  /\ calls p0 = [] /\ fd1 p0 = [] /\ pending (cout p0) = EmptyString
  /\ flags (cout p) = Z.lor (flags (cout p0)) ios.unitbuf
  /\ unitbuf_set (cout p0) = false
  /\ unitbuf_set (cout p) = true
  /\ exists rest,
       calls p = CSetf ios.unitbuf :: rest
       /\ forallb (fun c => negb (is_setf c)) rest = true.
Proof.
  cbv zeta.
  destruct (main_control w (start args env input) n eq_refl eq_refl)
    as (Hf & _ & k & tail & Hc & Ht).
  repeat split; try reflexivity; try exact Hf.
  - unfold unitbuf_set. rewrite Hf. reflexivity.
  - exists (cycles k ++ tail)%list. split; [exact Hc|].
    now rewrite forallb_app, cycles_no_setf, Ht.
Qed.

(** C7: the program reads nothing it was started with: on a given platform
    two runs started with any arguments, environment and standard input are
    at the same point after the same number of steps, with the same writes
    on file descriptor 1, the same calls made, the same sleeps and the same
    stream. *)
Theorem output_independent_of_inputs
        (w : nat -> bool)
        (args1 args2 : list string) (env1 env2 : list (string * string))
        (input1 input2 : string) (n : nat) :
  let c1 := run w n (Running main (start args1 env1 input1)) in
  let c2 := run w n (Running main (start args2 env2 input2)) in
  next_of c1 = next_of c2
  /\ fd1 (state_of c1) = fd1 (state_of c2)
  /\ calls (state_of c1) = calls (state_of c2)
  /\ sleeps (state_of c1) = sleeps (state_of c2)
  /\ cout (state_of c1) = cout (state_of c2).
Proof.
  cbv zeta.
  destruct (run_forget w n main (start args1 env1 input1)) as [N1 S1].
  destruct (run_forget w n main (start args2 env2 input2)) as [N2 S2].
  change (forget_inputs (start args2 env2 input2))
    with (forget_inputs (start args1 env1 input1)) in N2, S2.
  rewrite N2 in N1. rewrite S2 in S1. clear N2 S2.
  split; [now symmetry|].
  set (p1 := state_of _) in *. set (p2 := state_of _) in *.
  repeat split.
  - apply (f_equal fd1) in S1. now symmetry.
  - apply (f_equal calls) in S1. now symmetry.
  - apply (f_equal sleeps) in S1. now symmetry.
  - apply (f_equal cout) in S1. now symmetry.
Qed.

(** C8: the program does not observe write failures: whatever writes fail,
    after the same number of steps the program is at the same point and has
    made the same calls and requested the same sleeps as on a platform on
    which no write fails. *)
Theorem write_failures_not_observed
        (w : nat -> bool) (args : list string) (env : list (string * string))
        (input : string) (n : nat) :
  let c := run w n (Running main (start args env input)) in
  let c0 := run ok_always n (Running main (start args env input)) in
  next_of c = next_of c0
  /\ calls (state_of c) = calls (state_of c0)
  /\ sleeps (state_of c) = sleeps (state_of c0).
Proof.
  cbv zeta.
  destruct (run_control w ok_always n main (start args env input)
                        (start args env input) eq_refl) as [Hn Hc].
  unfold control in Hc. split; [exact Hn|]. split; congruence.
Qed.

(** With the reader gone from the start nothing reaches file descriptor 1
    and the stream goes bad at the first insertion; the calls go on. *)
Example closed_pipe_two_iterations :
  let p := state_of (run closed_pipe 9 (Running main bare_start)) in
  fd1 p = [] /\ rdstate (cout p) = ios.badbit /\ attempts p = 1%nat
  /\ calls p = [CSetf ios.unitbuf; CInsert "."; CEndl; CSleepFor 100;
                CInsert "."; CEndl; CSleepFor 100].
Proof. vm_compute. repeat split. Qed.


Example closed_pipe_at_sleep_and_head :
  let c3 := run closed_pipe 3 (Running main bare_start) in
  let c5 := run closed_pipe 5 (Running main bare_start) in
  next_of c3 = NCall (CSleepFor 100)
  /\ pending (cout (state_of c3)) = "."
  /\ fd1 (state_of c3) = []
  /\ written (calls (state_of c3)) = "." ++ newline
  /\ next_of c5 = NCall (CInsert ".")
  /\ pending (cout (state_of c5)) = "."
  /\ fd1 (state_of c5) = [].
Proof. vm_compute. repeat split. Qed.



Lemma emitted_lines_copies (m : nat) (r : string) :
  r = EmptyString \/ r = "." ->
  length (emitted_lines (copies m dot_line ++ r)) = m.
Proof.
  intros Hr. unfold emitted_lines. rewrite (split_lines_copies m r Hr).
  apply repeat_length.
Qed.

Lemma slept_us_100 (p : process) :
  Forall (fun d => d = 100) (sleeps p) ->
  slept_us p = 100 * Z.of_nat (length (sleeps p)).
Proof.
  unfold slept_us. induction 1 as [|d l Hd _ IH]; [reflexivity|].
  cbn [fold_right length]. rewrite IH, Hd. lia.
Qed.

(** C6, as stated, fails: with the reader gone from the start, after the
    first sleep (step 4) 100 microseconds were requested and no line is on
    standard output. *)
Lemma closed_pipe_no_line_after_a_sleep :
  ~ line_after_a_sleep_period closed_pipe bare_start.
Proof.
  intros H. specialize (H 4%nat). cbv zeta in H.
  assert (Hs : 100 <= slept_us (state_of (run closed_pipe 4
                                                  (Running main bare_start))))
    by (vm_compute; discriminate).
  pose proof (H Hs) as L. vm_compute in L. lia.
Qed.

(** C6, amended: time being measured by the sleeping the program has
    requested, on any platform and at any point of the run at which the
    stream is good (no write has failed so far): if one sleep period (100
    microseconds) or more has been requested, or if a sleep is about to be
    requested, then at least one line has been emitted, and at least as
    many lines as sleeps requested; so the first token is out before the
    first sleep. *)
Theorem line_emitted_within_a_sleep_period
        (w : nat -> bool) (args : list string) (env : list (string * string))
        (input : string) (n : nat)
        (Hgood : good (cout (state_of (run w n (Running main
                                                  (start args env input)))))
                 = true)
        (HT : 100 <= slept_us (state_of (run w n (Running main
                                                    (start args env input))))
              \/ exists d, next_of (run w n (Running main
                                                 (start args env input)))
                           = NCall (CSleepFor d)) :
  let p := state_of (run w n (Running main (start args env input))) in
  (1 <= length (emitted_lines (stdout_bytes p)))%nat
  /\ (length (sleeps p) <= length (emitted_lines (stdout_bytes p)))%nat.
Proof.
  cbv zeta.
  destruct (main_flushed w args env input n Hgood)
    as (_ & _ & m & r & Hr & Hb & Hle & Hsleep).
  rewrite Hb, (emitted_lines_copies m r Hr).
  split; [|exact Hle].
  destruct HT as [HT | [d Hd]].
  - assert (Hsl : Forall (fun d => d = 100)
                    (sleeps (state_of (run w n (Running main
                                                  (start args env input)))))).
    { destruct n as [|n]; [constructor|].
      now apply (main_control w (start args env input) n). }
    rewrite (slept_us_100 _ Hsl) in HT. lia.
  - rewrite (Hsleep d Hd). lia.
Qed.

Lemma line_emitted_within_a_sleep_period_witness :
  (good (cout (state_of (run ok_always 4 (Running main bare_start)))) = true
   /\ 100 <= slept_us (state_of (run ok_always 4 (Running main bare_start)))
   /\ (1 <= length (emitted_lines
                      (stdout_bytes
                         (state_of (run ok_always 4
                                        (Running main bare_start))))))%nat)
  /\ (good (cout (state_of (run ok_always 3 (Running main bare_start))))
      = true
      /\ (exists d,
            next_of (run ok_always 3 (Running main bare_start))
            = NCall (CSleepFor d))
      /\ sleeps (state_of (run ok_always 3 (Running main bare_start))) = []
      /\ (1 <= length (emitted_lines
                         (stdout_bytes
                            (state_of (run ok_always 3
                                           (Running main bare_start))))))%nat).
Proof.
  split.
  - split; [reflexivity|].
    split; [vm_compute; discriminate|].
    apply (line_emitted_within_a_sleep_period ok_always [] [] EmptyString 4).
    + reflexivity.
    + left. vm_compute. discriminate.
  - split; [reflexivity|].
    split; [exists 100; reflexivity|].
    split; [reflexivity|].
    apply (line_emitted_within_a_sleep_period ok_always [] [] EmptyString 3).
    + reflexivity.
    + right. exists 100. reflexivity.
Defined.

Lemma iterations_sleeps (w : nat -> bool) (k : nat) (p : process) :
  length (sleeps (Nat.iter k (iteration w) p)) = (length (sleeps p) + k)%nat.
Proof.
  induction k as [|k IH]; [now rewrite Nat.add_0_r|].
  rewrite Nat.iter_succ.
  destruct (control_parts _ _ _ _
              (iteration_control w (Nat.iter k (iteration w) p)))
    as (_ & -> & _).
  rewrite length_app, IH. cbn [length]. lia.
Qed.

(** C9, as stated, fails: when the first write is accepted and every later
    one refused, standard output holds the dot alone after one iteration,
    and still after three. *)
Lemma first_write_only_leaves_a_dot :
  ~ n_lines_after_n_iterations first_write_only bare_start.
Proof.
  intros H. specialize (H 1%nat). vm_compute in H. discriminate H.
Qed.

Example first_write_only_after_iterations :
  stdout_bytes (state_of (run first_write_only (1 + 4 * 1)
                              (Running main bare_start))) = "."
  /\ stdout_bytes (state_of (run first_write_only (1 + 4 * 3)
                                 (Running main bare_start))) = "."
  /\ length (sleeps (state_of (run first_write_only (1 + 4 * 3)
                                   (Running main bare_start)))) = 3%nat.
Proof. vm_compute. repeat split. Qed.

(** C9, amended: on any platform, after n iterations (one step for line 5
    and four for each iteration: the three calls and the back edge) the
    program is at the head of the loop and n sleeps were requested; if the
    stream is good then (no write has failed so far), standard output has
    received n copies of the dot followed by the line terminator, 2 * n
    characters. *)
Theorem stdout_after_n_iterations
        (w : nat -> bool) (args : list string) (env : list (string * string))
        (input : string) (n : nat)
        (Hgood : good (cout (state_of (run w (1 + 4 * n)
                                           (Running main
                                                    (start args env input)))))
                 = true) :
  let c := run w (1 + 4 * n) (Running main (start args env input)) in
  next_of c = NCall (CInsert ".")
  /\ length (sleeps (state_of c)) = n
  /\ stdout_bytes (state_of c) = copies n ("." ++ newline)
  /\ String.length (stdout_bytes (state_of c)) = (2 * n)%nat.
Proof.
  cbv zeta. revert Hgood.
  destruct (main_at_head w (start args env input) n) as [-> ->].
  intros Hgood.
  pose proof (I_iterations w good_head (good_head_iteration w) n _
                (fun _ => flushed_head_start w args env input) Hgood)
    as (_ & _ & _ & Hfd & _).
  pose proof (iterations_sleeps w n (do_setf w (start args env input))) as Hs.
  change (length (sleeps (do_setf w (start args env input)))) with 0%nat in Hs.
  cbn [Nat.add] in Hs.
  assert (Hb : stdout_bytes
                 (Nat.iter n (iteration w) (do_setf w (start args env input)))
               = copies n dot_line).
  { unfold stdout_bytes. now rewrite Hfd, Hs, flatten_unit_chunks. }
  repeat split; try assumption.
  rewrite Hb. apply length_copies_dot_line.
Qed.

Lemma stdout_after_n_iterations_witness :
  good (cout (state_of (run ok_always (1 + 4 * 3) (Running main bare_start))))
  = true
  /\ stdout_bytes (state_of (run ok_always (1 + 4 * 3)
                                 (Running main bare_start)))
     = copies 3 ("." ++ newline).
Proof.
  split; [reflexivity|].
  apply (stdout_after_n_iterations ok_always [] [] EmptyString 3).
  reflexivity.
Defined.

Lemma loop_at_sleep (w : nat -> bool) (p0 : process) (k : nat) :
  next_of (run w (4 * k + 2) (Running emitter_loop p0)) = NCall (CSleepFor 100)
  /\ state_of (run w (4 * k + 2) (Running emitter_loop p0))
     = do_endl w (do_insert w (Nat.iter k (iteration w) p0)).
Proof. rewrite run_add, run_iterations. split; reflexivity. Qed.

Lemma main_at_sleep (w : nat -> bool) (p0 : process) (k : nat) :
  next_of (run w (1 + 4 * k + 2) (Running main p0)) = NCall (CSleepFor 100)
  /\ state_of (run w (1 + 4 * k + 2) (Running main p0))
     = do_endl w (do_insert w (Nat.iter k (iteration w) (do_setf w p0))).
Proof.
  change (1 + 4 * k + 2)%nat with (S (4 * k + 2)).
  destruct (run_main_S w (4 * k + 2) p0) as [-> ->].
  apply loop_at_sleep.
Qed.

(** C10, as stated, fails: after one iteration without write failures
    file descriptor 1 has received the dot and the line terminator in two
    writes with line 5 and in one write without it. *)
Lemma unitbuf_changes_flush_trace :
  ~ same_flush_trace ok_always bare_start.
Proof.
  intros H. specialize (H 1%nat). vm_compute in H. discriminate H.
Qed.

(** C10, amended: when no write fails, the program with line 5 and the
    program without it have the same content on standard output, and
    nothing pending in the stream, at the head of the loop after any number
    of iterations and at the sleep of every iteration; the writes that
    carried this content differ (the dot and the terminator apart with line
    5, a line at a time without it). *)
Theorem unitbuf_redundant_at_sleep
        (w : nat -> bool) (Hrel : reliable w)
        (args : list string) (env : list (string * string)) (input : string)
        (k : nat) :
  let p0 := start args env input in
  let m_head := run w (1 + 4 * k) (Running main p0) in
  let b_head := run w (4 * k) (Running main_without_unitbuf p0) in
  let m_sleep := run w (1 + 4 * k + 2) (Running main p0) in
  let b_sleep := run w (4 * k + 2) (Running main_without_unitbuf p0) in
  (next_of m_head = NCall (CInsert ".")
   /\ next_of b_head = NCall (CInsert ".")
   /\ stdout_bytes (state_of m_head) = stdout_bytes (state_of b_head)
   /\ pending (cout (state_of m_head)) = EmptyString
   /\ pending (cout (state_of b_head)) = EmptyString
   /\ fd1 (state_of m_head) = unit_chunks k
   /\ fd1 (state_of b_head) = line_chunks k)
  /\ (next_of m_sleep = NCall (CSleepFor 100)
      /\ next_of b_sleep = NCall (CSleepFor 100)
      /\ stdout_bytes (state_of m_sleep) = stdout_bytes (state_of b_sleep)
      /\ pending (cout (state_of m_sleep)) = EmptyString
      /\ pending (cout (state_of b_sleep)) = EmptyString).
Proof.
  cbv zeta. unfold main_without_unitbuf.
  destruct (main_at_head w (start args env input) k) as [-> ->].
  destruct (loop_at_head w (start args env input) k) as [-> ->].
  destruct (main_at_sleep w (start args env input) k) as [-> ->].
  destruct (loop_at_sleep w (start args env input) k) as [-> ->].
  pose proof (I_iterations w flushed_head (flushed_head_iteration w Hrel) k _
                (flushed_head_start w args env input)) as Hm.
  pose proof (I_iterations w buffered_head (buffered_head_iteration w Hrel) k _
                (buffered_head_start args env input)) as Hb.
  pose proof (iterations_sleeps w k (do_setf w (start args env input))) as Sm.
  pose proof (iterations_sleeps w k (start args env input)) as Sb.
  change (length (sleeps (do_setf w (start args env input)))) with 0%nat in Sm.
  change (length (sleeps (start args env input))) with 0%nat in Sb.
  cbn [Nat.add] in Sm, Sb.
  destruct (flushed_body w Hrel _ Hm) as (_ & (Dm & _) & _).
  destruct (buffered_body w Hrel _ Hb) as (_ & Db & _).
  set (pm := Nat.iter k (iteration w) (do_setf w (start args env input))) in *.
  set (pb := Nat.iter k (iteration w) (start args env input)) in *.
  destruct Hm as (_ & _ & Pm & Fm & _). destruct Hb as (_ & _ & Pb & Fb & _).
  rewrite Sm in Fm. rewrite Sb in Fb.
  unfold device in Dm, Db.
  assert (Em : pending (cout (do_endl w (do_insert w pm))) = EmptyString
               /\ fd1 (do_endl w (do_insert w pm))
                  = (fd1 pm ++ ["."; newline])%list)
    by (split; congruence).
  assert (Eb : pending (cout (do_endl w (do_insert w pb))) = EmptyString
               /\ fd1 (do_endl w (do_insert w pb))
                  = (fd1 pb ++ [dot_line])%list)
    by (split; congruence).
  destruct Em as [Em1 Em2]. destruct Eb as [Eb1 Eb2].
  unfold stdout_bytes. rewrite Em2, Eb2, Fm, Fb.
  change (unit_chunks k ++ ["."; newline])%list with (unit_chunks (S k)).
  change (line_chunks k ++ [dot_line])%list with (line_chunks (S k)).
  rewrite !flatten_unit_chunks, !flatten_line_chunks.
  repeat split; assumption.
Qed.

Lemma unitbuf_redundant_at_sleep_witness :
  reliable ok_always
  /\ stdout_bytes (state_of (run ok_always (1 + 4 * 2 + 2)
                                 (Running main bare_start)))
     = stdout_bytes (state_of (run ok_always (4 * 2 + 2)
                                   (Running main_without_unitbuf
                                            bare_start))).
Proof.
  split; [intro k; reflexivity|].
  apply (unitbuf_redundant_at_sleep
           ok_always (fun _ => eq_refl) [] [] EmptyString 2).
Defined.

(** ** The writes of [main] on any platform *)

Lemma device_parts (p : process) (st : ios.iostate) (pd : string)
      (fd : list string) (a : nat) :
  device p = (st, pd, fd, a) ->
  rdstate (cout p) = st /\ pending (cout p) = pd /\ fd1 p = fd
  /\ attempts p = a.
Proof. unfold device. intros H. repeat split; congruence. Qed.

Lemma length_unit_chunks (k : nat) : length (unit_chunks k) = (2 * k)%nat.
Proof.
  induction k as [|k IH]; [reflexivity|].
  cbn [unit_chunks]. rewrite length_app, IH. cbn [length]. lia.
Qed.

Lemma unit_chunks_single (k : nat) :
  Forall (fun c => String.length c = 1%nat) (unit_chunks k).
Proof.
  induction k as [|k IH]; [constructor|].
  cbn [unit_chunks]. apply Forall_app. split; [exact IH|].
  repeat constructor.
Qed.

Section Wire.
Variable w : nat -> bool.

Lemma bad_device_steps (p : process) :
  good (cout p) = false ->
  device (do_insert w p) = device p
  /\ device (do_endl w (do_insert w p)) = device p
  /\ device (iteration w p) = device p.
Proof.
  intros H. destruct (bad_steps w p H) as (G1 & _).
  pose proof (do_insert_on_bad w p H) as Hi.
  pose proof (do_endl_on_bad w _ G1) as He. rewrite Hi in He.
  repeat split; assumption.
Qed.

Lemma iteration_sleeps (p : process) :
  length (sleeps (iteration w p)) = S (length (sleeps p)).
Proof.
  destruct (control_parts _ _ _ _ (iteration_control w p)) as (_ & -> & _).
  rewrite length_app. cbn [length]. lia.
Qed.

Lemma wire_body (p : process) :
  wire_head p ->
  (exists s k, wire_at s k (do_insert w p) /\ (k <= length (sleeps p))%nat)
  /\ (exists s k, wire_at s k (do_endl w (do_insert w p))
                  /\ (k <= S (length (sleeps p)))%nat)
  /\ wire_head (iteration w p).
Proof.
  intros (Hu & s & k & Hs & Hw & Hk).
  assert (Hu3 : has_unitbuf (flags (cout (iteration w p))) = true).
  { destruct (control_parts _ _ _ _ (iteration_control w p)) as (-> & _).
    exact Hu. }
  assert (Hbad : rdstate (cout p) = ios.badbit ->
                 (exists s k, wire_at s k (do_insert w p)
                              /\ (k <= length (sleeps p))%nat)
                 /\ (exists s k, wire_at s k (do_endl w (do_insert w p))
                                 /\ (k <= S (length (sleeps p)))%nat)
                 /\ wire_head (iteration w p)).
  { intros Hst.
    destruct (bad_device_steps p (bad_of_rdstate _ Hst)) as (D1 & D2 & D3).
    split; [|split; [|split; [exact Hu3|]]]; exists s, k.
    - split; [|exact Hk]. unfold wire_at. now rewrite D1.
    - split; [|lia]. unfold wire_at. now rewrite D2.
    - split; [exact Hs|]. rewrite iteration_sleeps.
      split; [|lia]. unfold wire_at. now rewrite D3. }
  destruct s; [|contradiction| |];
    try (apply Hbad; now destruct (device_parts _ _ _ _ _ Hw) as (-> & _)).
  clear Hbad.
  destruct (device_parts _ _ _ _ _ Hw) as (Hst & Hpd & Hfd & Hat).
  pose proof (do_insert_unitbuf w p (good_of_rdstate _ Hst) Hu Hpd) as Hi.
  rewrite Hfd, Hat in Hi.
  assert (Hu1 : has_unitbuf (flags (cout (do_insert w p))) = true)
    by now rewrite do_insert_flags.
  pose proof (iteration_sleeps p) as Hs3.
  assert (Hd3 : forall s' k', wire_at s' k' (do_endl w (do_insert w p)) ->
                              wire_at s' k' (iteration w p))
    by (intros s' k' H; exact H).
  set (q1 := do_insert w p) in *. set (q2 := do_endl w q1) in *.
  destruct (w (2 * k)%nat).
  - destruct (device_parts _ _ _ _ _ Hi) as (Hst1 & Hpd1 & Hfd1 & Hat1).
    pose proof (do_endl_unitbuf w q1 (good_of_rdstate _ Hst1) Hu1 Hpd1) as He.
    fold q2 in He. rewrite Hfd1, Hat1 in He.
    split; [exists Dot, k; split; [exact Hi | exact Hk]|].
    destruct (w (S (2 * k))).
    + assert (Hl : wire_at Line (S k) q2).
      { unfold wire_at. rewrite He. cbn [unit_chunks].
        rewrite <- app_assoc. cbn [app].
        replace (2 * S k)%nat with (S (S (2 * k))) by lia. reflexivity. }
      split; [exists Line, (S k); split; [exact Hl | lia]|].
      split; [exact Hu3|]. exists Line, (S k).
      split; [discriminate|]. split; [exact (Hd3 _ _ Hl)|]. lia.
    + split; [exists NewlineRefused, k; split; [exact He | lia]|].
      split; [exact Hu3|]. exists NewlineRefused, k.
      split; [discriminate|]. split; [exact (Hd3 NewlineRefused k He)|]. lia.
  - destruct (device_parts _ _ _ _ _ Hi) as (Hst1 & _).
    pose proof (do_endl_on_bad w q1 (bad_of_rdstate _ Hst1)) as He.
    fold q2 in He. rewrite Hi in He.
    split; [exists DotRefused, k; split; [exact Hi | exact Hk]|].
    split; [exists DotRefused, k; split; [exact He | lia]|].
    split; [exact Hu3|]. exists DotRefused, k.
    split; [discriminate|]. split; [exact (Hd3 DotRefused k He)|]. lia.
Qed.

Lemma wire_head_iteration (p : process) :
  wire_head p -> wire_head (iteration w p).
Proof. intros H. apply wire_body, H. Qed.

Lemma wire_head_start (args : list string) (env : list (string * string))
      (input : string) :
  wire_head (do_setf w (start args env input)).
Proof.
  split; [reflexivity|]. exists Line, 0%nat.
  split; [discriminate|]. split; [reflexivity | apply Nat.le_refl].
Qed.

(** At every point of [main] the output side is at one of the four
    stages, with at most one line more than sleeps requested. *)
Lemma main_wire (args : list string) (env : list (string * string))
      (input : string) (n : nat) :
  let p := state_of (run w n (Running main (start args env input))) in
  exists s k, wire_at s k p /\ (k <= S (length (sleeps p)))%nat.
Proof.
  cbv zeta.
  pose proof (main_points w wire_head wire_head_iteration
                (start args env input) n
                (wire_head_start args env input)) as H.
  set (nx := next_of _) in *. set (p := state_of _) in *. clearbody nx p.
  destruct H as [|? ? [q Hq|q Hq|q Hq|q Hq]].
  - exists Line, 0%nat. split; [reflexivity | apply Nat.le_0_l].
  - destruct Hq as (_ & s & k & _ & Hw & Hk). exists s, k.
    split; [exact Hw|lia].
  - destruct (wire_body q Hq) as ((s & k & Hw & Hk) & _).
    exists s, k. rewrite do_insert_sleeps. split; [exact Hw|lia].
  - destruct (wire_body q Hq) as (_ & (s & k & Hw & Hk) & _).
    exists s, k. rewrite do_endl_sleeps, do_insert_sleeps. split; assumption.
  - destruct (wire_head_iteration q Hq) as (_ & s & k & _ & Hw & Hk).
    exists s, k. split; [exact Hw|lia].
Qed.
End Wire.

(** ** After a failed write *)

Lemma handle_bad_device (w : nat -> bool) {T} (e : libE T) (p : process) :
  good (cout p) = false -> device (snd (handle w e p)) = device p.
Proof.
  intros H. destruct e; unfold handle; cbn [call_of snd].
  - reflexivity.
  - rewrite insert_on_bad; [reflexivity | exact H].
  - rewrite endl_on_bad; [reflexivity | exact H].
  - reflexivity.
Qed.

Lemma good_of_device (p q : process) :
  device q = device p -> good (cout q) = good (cout p).
Proof. unfold device, good. intros H. injection H as -> _ _ _. reflexivity. Qed.

Lemma run_bad_device (w : nat -> bool) (n : nat) :
  forall (c : config),
    good (cout (state_of c)) = false ->
    device (state_of (run w n c)) = device (state_of c).
Proof.
  induction n as [|n IH]; intros c H; [reflexivity|].
  destruct c as [t p|r p]; [|now rewrite run_exited].
  cbn [run step]. cbn [state_of] in H |- *.
  destruct (observe t) as [r|t'|X e k].
  - now rewrite run_exited.
  - now apply (IH (Running t' p)).
  - pose proof (handle_bad_device w e p H) as Hd.
    destruct (handle w e p) as [x p1]. cbn [snd] in Hd.
    rewrite <- Hd. apply (IH (Running (k x) p1)).
    cbn [state_of]. now rewrite (good_of_device _ _ Hd).
Qed.

(** X1: once a write has failed the program never writes again: from a
    point with the stream bad, at every later point file descriptor 1 has
    received the same writes, the same number of writes was attempted, and
    the stream is in the same error state with the same characters
    pending. *)
Theorem no_write_after_a_failed_write
        (w : nat -> bool) (args : list string) (env : list (string * string))
        (input : string) (n m : nat)
        (Hbad : good (cout (state_of (run w n (Running main
                                                 (start args env input)))))
                = false) :
  let p := state_of (run w n (Running main (start args env input))) in
  let q := state_of (run w (n + m) (Running main (start args env input))) in
  fd1 q = fd1 p /\ attempts q = attempts p
  /\ rdstate (cout q) = ios.badbit /\ pending (cout q) = pending (cout p).
Proof.
  cbv zeta. rewrite run_add.
  pose proof (run_bad_device w m _ Hbad) as H.
  pose proof (good_of_device _ _ H) as G. rewrite Hbad in G.
  unfold device in H. unfold good in G.
  destruct (rdstate (cout (state_of (run w m _)))); [discriminate G|].
  repeat split; congruence.
Qed.

Lemma no_write_after_a_failed_write_witness :
  good (cout (state_of (run closed_pipe 2 (Running main bare_start)))) = false
  /\ fd1 (state_of (run closed_pipe (2 + 9) (Running main bare_start)))
     = fd1 (state_of (run closed_pipe 2 (Running main bare_start))).
Proof.
  split; [reflexivity|].
  apply (no_write_after_a_failed_write closed_pipe [] [] EmptyString 2 9).
  reflexivity.
Defined.

(** X2: on any platform and at every point of the run, every write
    attempted on file descriptor 1 was delivered, except one when the
    stream is bad: at most one write ever fails. *)
Theorem at_most_one_failed_write
        (w : nat -> bool) (args : list string) (env : list (string * string))
        (input : string) (n : nat) :
  let p := state_of (run w n (Running main (start args env input))) in
  attempts p
  = (length (fd1 p) + (if good (cout p) then 0 else 1))%nat.
Proof.
  cbv zeta. destruct (main_wire w args env input n) as (s & k & Hw & _).
  cbv zeta in Hw. unfold wire_at in Hw.
  destruct s; destruct (device_parts _ _ _ _ _ Hw) as (Hst & _ & Hfd & Hat);
    unfold good; rewrite Hst, Hfd, Hat, ?length_app, length_unit_chunks;
    cbn [length]; lia.
Qed.

(** X3: on any platform and at every point of the run, each write that
    reached file descriptor 1 carried exactly one character, and the writes
    are the dot and the line terminator in turn, starting with the dot. *)
Theorem writes_are_single_characters
        (w : nat -> bool) (args : list string) (env : list (string * string))
        (input : string) (n : nat) :
  let p := state_of (run w n (Running main (start args env input))) in
  Forall (fun c => String.length c = 1%nat) (fd1 p)
  /\ exists k, fd1 p = unit_chunks k \/ fd1 p = (unit_chunks k ++ ["."])%list.
Proof.
  cbv zeta. destruct (main_wire w args env input n) as (s & k & Hw & _).
  cbv zeta in Hw. unfold wire_at in Hw.
  assert (H : fd1 (state_of (run w n (Running main (start args env input))))
              = unit_chunks k
              \/ fd1 (state_of (run w n (Running main (start args env input))))
                 = (unit_chunks k ++ ["."])%list).
  { destruct s; destruct (device_parts _ _ _ _ _ Hw) as (_ & _ & Hfd & _);
      auto. }
  split; [|exists k; exact H].
  destruct H as [-> | ->].
  - apply unit_chunks_single.
  - apply Forall_app. split; [apply unit_chunks_single | repeat constructor].
Qed.

(** X4: on any platform and at every point of the run the stream holds at
    most one pending character: output does not pile up in the stream, also
    when writes fail. *)
Theorem pending_at_most_one_character
        (w : nat -> bool) (args : list string) (env : list (string * string))
        (input : string) (n : nat) :
  (String.length
     (pending (cout (state_of (run w n (Running main
                                          (start args env input))))))
   <= 1)%nat.
Proof.
  destruct (main_wire w args env input n) as (s & k & Hw & _).
  cbv zeta in Hw. unfold wire_at in Hw.
  destruct s; destruct (device_parts _ _ _ _ _ Hw) as (_ & -> & _);
    cbn; lia.
Qed.

(** X5: on any platform and at every point of the run, standard output
    holds at most one line more than sleeps were requested: each line after
    the first is preceded by a sleep of its own. *)
Theorem one_line_per_sleep
        (w : nat -> bool) (args : list string) (env : list (string * string))
        (input : string) (n : nat) :
  let p := state_of (run w n (Running main (start args env input))) in
  (length (emitted_lines (stdout_bytes p)) <= S (length (sleeps p)))%nat.
Proof.
  cbv zeta. destruct (main_wire w args env input n) as (s & k & Hw & Hk).
  cbv zeta in Hw, Hk. unfold wire_at in Hw. unfold stdout_bytes.
  assert (H : exists r, (r = EmptyString \/ r = ".")
                        /\ flatten (fd1 (state_of
                                          (run w n (Running main
                                                      (start args env input)))))
                           = copies k dot_line ++ r).
  { destruct s; destruct (device_parts _ _ _ _ _ Hw) as (_ & _ & -> & _).
    - exists EmptyString. rewrite flatten_unit_chunks, append_nil_r. auto.
    - exists ".". rewrite flatten_snoc, flatten_unit_chunks. auto.
    - exists EmptyString. rewrite flatten_unit_chunks, append_nil_r. auto.
    - exists ".". rewrite flatten_snoc, flatten_unit_chunks. auto. }
  destruct H as (r & Hr & ->). now rewrite (emitted_lines_copies k r Hr).
Qed.

(** X6: when the first write on file descriptor 1 fails (the reader is
    gone from the start), nothing is ever delivered and no second write is
    attempted, however long the program runs. *)
Theorem nothing_delivered_when_first_write_fails
        (w : nat -> bool) (args : list string) (env : list (string * string))
        (input : string) (n : nat)
        (Hfirst : w 0%nat = false) :
  let p := state_of (run w n (Running main (start args env input))) in
  fd1 p = [] /\ (attempts p <= 1)%nat.
Proof.
  cbv zeta. destruct n as [|[|m]].
  - split; [reflexivity | apply Nat.le_0_l].
  - split; [reflexivity | apply Nat.le_0_l].
  - change (S (S m)) with (2 + m)%nat. rewrite run_add.
    pose proof (do_insert_unitbuf w (do_setf w (start args env input))
                                  eq_refl eq_refl eq_refl) as Hi.
    change (attempts (do_setf w (start args env input))) with 0%nat in Hi.
    rewrite Hfirst in Hi.
    change (do_insert w (do_setf w (start args env input)))
      with (state_of (run w 2 (Running main (start args env input)))) in Hi.
    destruct (device_parts _ _ _ _ _ Hi) as (Hst & _ & Hfd & Hat).
    pose proof (run_bad_device w m _ (bad_of_rdstate _ Hst)) as H.
    destruct (device_parts _ _ _ _ _ (eq_trans H Hi)) as (_ & _ & -> & ->).
    split; [reflexivity | apply Nat.le_refl].
Qed.

Lemma nothing_delivered_when_first_write_fails_witness :
  closed_pipe 0%nat = false
  /\ fd1 (state_of (run closed_pipe 9 (Running main bare_start))) = [].
Proof.
  split; [reflexivity|].
  apply (nothing_delivered_when_first_write_fails
           closed_pipe [] [] EmptyString 9).
  reflexivity.
Defined.
